(** * The Dyson cloud client, embedded

    The class [DysonClient] (dyson-client.ts, the second file of
    src/src/index.ts) has two mutable fields, the session token and the
    device directory; its methods talk to the vendor's cloud over HTTP, and
    its pure helpers translate between the wire state and a status.

    - A JavaScript string is a [string], the bytes of its UTF-8 encoding.
    - A JavaScript number is a binary64 [float]; [parseInt], [Math.round]
      and the conversion of a number to a string are written out on the
      exact value of the double.
    - A method is a function from the client's state to an outcome and the
      state it leaves; the state records the requests sent, and the cloud
      is a function from the requests sent so far to its reply: no
      response, a response whose body is JSON of the documented shape, or
      a response whose body is not, which throws where it is read.
    - [getDevices] calls itself, so it takes fuel, and a run that is cut off
      is an outcome of its own.

    The tool server (index.ts, the first file) holds one client; its handler
    of CallTool picks a method of the client by the tool's name, and answers
    with what the method returns, printed as JSON, or with the message of
    what it throws. *)

From Stdlib Require Import ZArith List Bool Ascii String Floats Lia.
From Stdlib Require DecimalString.
Import ListNotations.

Set Warnings "-inexact-float".

Local Open Scope string_scope.
Local Open Scope Z_scope.

(** ** JavaScript strings *)

Module JsString.

(** [String.prototype.toUpperCase] on the letters a to z.  Letters outside
    ASCII have an upper case too, but it never consists of the letters
    A, U, T and O alone, so the test against ["AUTO"] reads the same. *)
Definition upperChar (c : ascii) : ascii :=
  let n := N_of_ascii c in
  if ((97 <=? n) && (n <=? 122))%N then ascii_of_N (n - 32) else c.

Fixpoint toUpperCase (s : string) : string :=
  match s with
  | EmptyString => EmptyString
  | String c rest => String (upperChar c) (toUpperCase rest)
  end.

Definition isDigit (c : ascii) : bool :=
  let n := N_of_ascii c in ((48 <=? n) && (n <=? 57))%N.

Definition digitValue (c : ascii) : Z := Z.of_N (N_of_ascii c) - 48.

(** The white space [parseInt] skips: TAB, LF, VT, FF, CR, SP, and in
    UTF-8 the no-break space, the byte order mark, the line and paragraph
    separators and the space separators of Unicode. *)
Fixpoint skipWhiteSpace (s : string) : string :=
  match s with
  | String c rest =>
      let n := N_of_ascii c in
      if (((9 <=? n) && (n <=? 13)) || (n =? 32))%N then skipWhiteSpace rest
      else
        match rest with
        | String c1 rest1 =>
            let n1 := N_of_ascii c1 in
            if ((n =? 194) && (n1 =? 160))%N then skipWhiteSpace rest1
            else
              match rest1 with
              | String c2 rest2 =>
                  let n2 := N_of_ascii c2 in
                  if (((n =? 225) && (n1 =? 154) && (n2 =? 128))
                      || ((n =? 226) && (n1 =? 128)
                          && (((128 <=? n2) && (n2 <=? 138))
                              || (n2 =? 168) || (n2 =? 169) || (n2 =? 175)))
                      || ((n =? 226) && (n1 =? 129) && (n2 =? 159))
                      || ((n =? 227) && (n1 =? 128) && (n2 =? 128))
                      || ((n =? 239) && (n1 =? 187) && (n2 =? 191)))%N
                  then skipWhiteSpace rest2
                  else s
              | EmptyString => s
              end
        | EmptyString => s
        end
  | EmptyString => s
  end.

(** The longest prefix of decimal digits, read as an integer; [acc] is
    the value of the digits read so far and [seen] says there was one. *)
Fixpoint readDigits (s : string) (acc : Z) (seen : bool) : option Z :=
  match s with
  | String c rest =>
      if isDigit c then readDigits rest (10 * acc + digitValue c) true
      else if seen then Some acc else None
  | EmptyString => if seen then Some acc else None
  end.

(** [padStart(n, "0")] of a string of ASCII characters. *)
Fixpoint zeros (n : nat) : string :=
  match n with
  | O => EmptyString
  | S k => String "0" (zeros k)
  end.

Definition padStart0 (n : nat) (s : string) : string :=
  zeros (n - String.length s) ++ s.

End JsString.

(** ** JavaScript numbers *)

Module JsNumber.

Import JsString.

(** The double nearest to an integer (ties to even), as the conversion of a
    mathematical value to a Number gives it. *)
Definition ofZ (z : Z) : float :=
  SF2Prim (SpecFloat.binary_normalize prec emax z 0 false).

Definition isNaN (x : float) : bool := PrimFloat.is_nan x.

(** What [parseInt(s, 10)] reads: white space is skipped, a sign is
    read, then the longest run of digits; [None] when there is no digit. *)
Definition leadingInteger (s : string) : option (bool * Z) :=
  let t := skipWhiteSpace s in
  let '(negative, digits) :=
    match t with
    | String "-" rest => (true, rest)
    | String "+" rest => (false, rest)
    | _ => (false, t)
    end in
  match readDigits digits 0 false with
  | None => None
  | Some z => Some (negative, z)
  end.

(** [parseInt(s, 10)]: no digit gives NaN, a minus sign before zero gives
    the negative zero, and the integer read is rounded to a double. *)
Definition parseInt (s : string) : float :=
  match leadingInteger s with
  | None => nan
  | Some (negative, z) => if negative then (- ofZ z)%float else ofZ z
  end.

(** [Math.round]: the nearest integer, a tie going up; computed on the
    exact value [m * 2^e] of the double. *)
Definition round (x : float) : float :=
  match Prim2SF x with
  | S754_finite negative m e =>
      if 0 <=? e then x
      else
        let d := 2 ^ (- e) in
        if negative
        then (- ofZ (- ((d - 2 * Zpos m) / (2 * d))))%float
        else ofZ ((2 * Zpos m + d) / (2 * d))
  | _ => x
  end.

Definition decimal (z : Z) : string :=
  DecimalString.NilZero.string_of_uint (N.to_uint (Z.to_N z)).

(** *** Number to string

    [toString] prints the fewest digits [s] (there are [k] of them) with
    a decimal exponent [n] such that [s * 10^(n-k)] still rounds to the
    double, and among those the nearest to it. *)

(** [a * 10^p] compared with [b * 2^g]. *)
Definition compareScaled (a p b g : Z) : comparison :=
  (a * 10 ^ Z.max p 0 * 2 ^ Z.max (- g) 0
     ?= b * 2 ^ Z.max g 0 * 10 ^ Z.max (- p) 0).

(** The integer part of [m * 2^e / 10^p]. *)
Definition floorScaled (m e p : Z) : Z :=
  (m * 2 ^ Z.max e 0 * 10 ^ Z.max (- p) 0)
    / (2 ^ Z.max (- e) 0 * 10 ^ Z.max p 0).

(** Does [s * 10^p] round to the double [m * 2^e]?  It does between the
    midpoints to the neighbouring doubles, the midpoints included when
    [m] is even. *)
Definition roundsTo (m e s p : Z) : bool :=
  let above :=
    if (m =? 2 ^ 52) && (-1074 <? e)
    then compareScaled s p (4 * m - 1) (e - 2)
    else compareScaled s p (2 * m - 1) (e - 1) in
  let below := compareScaled s p (2 * m + 1) (e - 1) in
  match above with Gt => true | Eq => Z.even m | Lt => false end
  && match below with Lt => true | Eq => Z.even m | Gt => false end.

(** The least [n] from a lower estimate on with [m * 2^e < 10^n]. *)
Fixpoint exponent10 (fuel : nat) (m e n : Z) : Z :=
  match fuel with
  | O => n
  | S fuel' =>
      match compareScaled 1 n m e with
      | Gt => n
      | _ => exponent10 fuel' m e (n + 1)
      end
  end.

(** The digits, their number and the exponent, trying [k] digits first
    and one more when neither neighbour at [k] digits rounds back;
    seventeen digits always do. *)
Fixpoint shortest (fuel : nat) (m e n k : Z) : Z * Z * Z :=
  let p := n - k in
  let s := floorScaled m e p in
  match fuel with
  | O => (s, k, n)
  | S fuel' =>
      let lower := roundsTo m e s p in
      let upper := roundsTo m e (s + 1) p in
      let pick (t : Z) :=
        if t =? 10 ^ k then (t / 10, k, n + 1) else (t, k, n) in
      if lower && upper then
        match compareScaled (2 * s + 1) p (2 * m) e with
        | Gt => pick s
        | Lt => pick (s + 1)
        | Eq => if Z.even s then pick s else pick (s + 1)
        end
      else if lower then pick s
      else if upper then pick (s + 1)
      else shortest fuel' m e n (k + 1)
  end.

Definition slice (from len : Z) (s : string) : string :=
  String.substring (Z.to_nat from) (Z.to_nat len) s.

Definition render (s k n : Z) : string :=
  let ds := decimal s in
  if (k <=? n) && (n <=? 21) then ds ++ zeros (Z.to_nat (n - k))
  else if (0 <? n) && (n <=? 21)
  then slice 0 n ds ++ "." ++ slice n (k - n) ds
  else if (-6 <? n) && (n <=? 0) then "0." ++ zeros (Z.to_nat (- n)) ++ ds
  else
    let e := n - 1 in
    let sign := if e <? 0 then "-" else "+" in
    if k =? 1 then ds ++ "e" ++ sign ++ decimal (Z.abs e)
    else slice 0 1 ds ++ "." ++ slice 1 (k - 1) ds
           ++ "e" ++ sign ++ decimal (Z.abs e).

Definition toString (x : float) : string :=
  match Prim2SF x with
  | S754_nan => "NaN"
  | S754_zero _ => "0"
  | S754_infinity negative => if negative then "-Infinity" else "Infinity"
  | S754_finite negative m e =>
      let m := Zpos m in
      let n0 := ((e + Z.log2 m) * 30103) / 100000 - 2 in
      let '(s, k, n) := shortest 17 m e (exponent10 12 m e n0) 1 in
      (if negative then "-" else "") ++ render s k n
  end.

End JsNumber.

(** ** The client's data *)

(** What reading a key of a table gives, the table being a plain object: a
    string, or a member the object inherits from [Object.prototype] (a
    function, and for __proto__ the prototype itself), which is no string. *)
Inductive Member :=
| Text (s : string)
| Inherited (key : string).

(** [DysonDevice], an entry of the device directory.  Its product type name
    is declared a string, and is what the table of product types gives. *)
Record DysonDevice := {
  serial : string;
  name : string;
  productType : string;
  productTypeName : Member;
  connectionType : string;
  localCredentials : option string
}.

(** [AirQuality]: six numbers. *)
Record AirQuality := {
  pm25 : float;
  pm10 : float;
  voc : float;
  no2 : float;
  humidity : float;
  temperature : float
}.

(** [DeviceStatus], what a status read returns; [status_serial] and
    [status_name] are its fields serial and name. *)
Record DeviceStatus := {
  status_serial : string;
  status_name : string;
  power : bool;
  fanSpeed : string;
  oscillation : bool;
  nightMode : bool;
  autoMode : bool;
  airQuality : option AirQuality
}.

(** [DysonState], the wire state: a JSON object of string fields.  A field
    the object lacks reads [undefined], here [None]; the same record gives
    the partial state of an update, which carries the fields that are set.
    [wire_pm25] and [wire_pm10] are its fields pm25 and pm10. *)
Record DysonState := {
  fpwr : option string;
  fnsp : option string;
  oson : option string;
  nmod : option string;
  auto : option string;
  hact : option string;
  tact : option string;
  pact : option string;
  vact : option string;
  wire_pm25 : option string;
  wire_pm10 : option string;
  noxl : option string
}.

Definition emptyState : DysonState :=
  {| fpwr := None; fnsp := None; oson := None; nmod := None; auto := None;
     hact := None; tact := None; pact := None; vact := None;
     wire_pm25 := None; wire_pm10 := None; noxl := None |}.

(** An entry of the manifest as the cloud sends it. *)
Record ManifestEntry := {
  Serial : string;
  Name : option string;
  ProductType : string;
  ConnectionType : string;
  LocalCredentials : option string
}.

Inductive TemperatureUnit := UnitC | UnitF.

(** What a method throws; the source throws [Error] objects, told apart here
    by their message. *)
Inductive ClientError :=
| InvalidCredentials                       (* Invalid Dyson credentials *)
| AuthenticationFailed (status : Z) (statusText : string)
| GetDevicesFailed (status : Z)            (* Failed to get devices: status *)
| DeviceNotFound (deviceId : string)       (* Device not found: id *)
| NoDevicesFound                           (* No Dyson devices found in account *)
| GetStatusFailed (status : Z)             (* Failed to get device status: status *)
| StateUpdateFailed (status : Z)           (* Failed to set device state: status *)
| InvalidFanSpeed                          (* Fan speed must be 1-10 or "auto" *)
| AirQualityUnavailable                    (* Air quality data not available ... *)
| TransportFailure                         (* fetch rejected *)
| UnexpectedBody (message : string).       (* reading the body threw: message *)

(** ** The pure helpers of [DysonClient] *)

Module Pure.

Import JsString JsNumber.

(** A value in a condition: [undefined] and the empty string are false. *)
Definition truthy (v : option string) : bool :=
  match v with
  | Some s => negb (s =? "")%string
  | None => false
  end.

(** A value where a string is expected: [undefined] reads "undefined". *)
Definition asString (v : option string) : string :=
  match v with
  | Some s => s
  | None => "undefined"
  end.

(** [v === 'lit'] *)
Definition strictEq (v : option string) (lit : string) : bool :=
  match v with
  | Some s => (s =? lit)%string
  | None => false
  end.

Definition parseFanSpeed (fnsp : option string) : string :=
  if strictEq fnsp "AUTO" then "auto"
  else toString (parseInt (asString fnsp)).

Definition kelvinToCelsius (kelvin : float) : float :=
  (round ((kelvin - 273.15) * 10) / 10)%float.

Definition parseAirQuality (state : DysonState) : option AirQuality :=
  if negb (truthy (wire_pm25 state)) && negb (truthy (pact state))
     && negb (truthy (hact state))
  then None
  else
    let field (v : option string) : float :=
      if truthy v then parseInt (asString v) else 0%float in
    Some {|
      pm25 := if truthy (wire_pm25 state)
              then parseInt (asString (wire_pm25 state))
              else field (pact state);
      pm10 := field (wire_pm10 state);
      voc := field (vact state);
      no2 := field (noxl state);
      humidity := field (hact state);
      temperature :=
        if truthy (tact state)
        then kelvinToCelsius (parseInt (asString (tact state)) / 10)%float
        else 0%float
    |}.

Definition formatTemperature (celsius : float) (unit : TemperatureUnit) : string :=
  match unit with
  | UnitF => toString (round (celsius * 9 / 5 + 32)%float) ++ "°F"
  | UnitC => toString celsius ++ "°C"
  end.

Definition getAirQualityLevel (pm25 : float) : string :=
  if (pm25 <=? 12)%float then "Good"
  else if (pm25 <=? 35)%float then "Moderate"
  else if (pm25 <=? 55)%float then "Unhealthy for Sensitive Groups"
  else if (pm25 <=? 150)%float then "Unhealthy"
  else if (pm25 <=? 250)%float then "Very Unhealthy"
  else "Hazardous".

(** The object a status read builds from a device and its wire state
    (getDeviceStatus, the returned literal). *)
Definition toStatus (device : DysonDevice) (state : DysonState) : DeviceStatus :=
  {| status_serial := serial device;
     status_name := name device;
     power := strictEq (fpwr state) "ON";
     fanSpeed := parseFanSpeed (fnsp state);
     oscillation := strictEq (oson state) "ON";
     nightMode := strictEq (nmod state) "ON";
     autoMode := strictEq (auto state) "ON";
     airQuality := parseAirQuality state |}.

(** The update [{ fnsp, auto, fpwr: 'ON' }] of [setFanSpeed]. *)
Definition fanFields (fnsp auto : string) : DysonState :=
  {| fpwr := Some "ON"; fnsp := Some fnsp; oson := None; nmod := None;
     auto := Some auto; hact := None; tact := None; pact := None;
     vact := None; wire_pm25 := None; wire_pm10 := None; noxl := None |}.

(** The wire fields [setFanSpeed] computes before it updates the state,
    [inl] when it throws instead. *)
Definition fanSpeedFields (speed : string) : ClientError + DysonState :=
  let normalizedSpeed := toUpperCase speed in
  if (normalizedSpeed =? "AUTO")%string
  then inr (fanFields "AUTO" "ON")
  else
    let speedNum := parseInt speed in
    if isNaN speedNum || (speedNum <? 1)%float || (10 <? speedNum)%float
    then inl InvalidFanSpeed
    else inr (fanFields (padStart0 4 (toString speedNum)) "OFF").

(** The names of the members of [Object.prototype], which an object
    literal inherits: the standard ones and those of the standard's annex
    B, as Node has them. *)
Definition objectPrototype : list string :=
  ["constructor"; "__defineGetter__"; "__defineSetter__"; "hasOwnProperty";
   "__lookupGetter__"; "__lookupSetter__"; "isPrototypeOf";
   "propertyIsEnumerable"; "toString"; "valueOf"; "__proto__";
   "toLocaleString"].

(** [DEVICE_TYPES[code]]: the code table of product types is an object
    literal, so a code that names a member of [Object.prototype] reads that
    member; any other code that is not in the table reads [undefined]. *)
Definition DEVICE_TYPES (code : string) : option Member :=
  if (code =? "358")%string then Some (Text "Pure Humidify+Cool")
  else if (code =? "438")%string then Some (Text "Pure Cool Formaldehyde")
  else if (code =? "455")%string then Some (Text "Pure Hot+Cool Link")
  else if (code =? "469")%string then Some (Text "Pure Cool Link Desk")
  else if (code =? "475")%string then Some (Text "Pure Cool Link Tower")
  else if (code =? "520")%string then Some (Text "Pure Cool")
  else if (code =? "527")%string then Some (Text "Pure Hot+Cool")
  else if existsb (String.eqb code) objectPrototype then Some (Inherited code)
  else None.

(** One entry of the manifest as a directory entry (getDevices, the map).
    Every value the table gives is true in a condition: its strings are not
    empty, and an inherited member is a function or an object. *)
Definition toDevice (entry : ManifestEntry) : DysonDevice :=
  {| serial := Serial entry;
     name := if truthy (Name entry) then asString (Name entry)
             else "Dyson " ++ ProductType entry;
     productType := ProductType entry;
     productTypeName :=
       match DEVICE_TYPES (ProductType entry) with
       | Some member => member
       | None => Text "Unknown Dyson Device"
       end;
     connectionType := ConnectionType entry;
     localCredentials := LocalCredentials entry |}.

End Pure.

(** ** The cloud and the client's state *)

(** The four requests the client sends, with what each carries: the host of
    the URL, the device's serial in the path, the bearer token (the value of
    [authToken], [null] included) and the JSON body. *)
Inductive Request :=
| ReqAuthenticate (host email password : string)
| ReqManifest (host : string) (token : option string)
| ReqGetState (host serial : string) (token : option string)
| ReqPatchState (host serial : string) (token : option string) (fields : DysonState).

(** A response: its status and its body. *)
Record Response (A : Type) := {
  status : Z;
  statusText : string;
  body : A
}.
Arguments status {A} _.
Arguments statusText {A} _.
Arguments body {A} _.

(** [response.ok] *)
Definition ok {A} (r : Response A) : bool :=
  (200 <=? status r) && (status r <=? 299).

(** What the cloud does with a request.  The body of a response is read
    after its status, with [response.json()]: [Answered] is a response whose
    body is JSON of the shape the endpoint documents, its body that value;
    [Garbled] is a response whose body is not (no JSON at all, [null], no
    array where the manifest is expected, ...), its body the message of
    what the runtime throws where the client reads it. *)
Inductive Reply (A : Type) :=
| Rejected                      (* fetch rejects: no response at all *)
| Answered (r : Response A)
| Garbled (r : Response string).
Arguments Rejected {A}.
Arguments Answered {A} r.
Arguments Garbled {A} r.

(** The response [fetch] resolves to, its body not read yet: [inr] the
    value reading it gives, [inl] the message of what reading it throws. *)
Definition readable {A} (r : Response A) : Response (string + A) :=
  {| status := status r; statusText := statusText r; body := inr (body r) |}.

Definition unreadable {A} (r : Response string) : Response (string + A) :=
  {| status := status r; statusText := statusText r; body := inl (body r) |}.

(** The vendor's cloud: what it answers to a request, given every request
    sent so far, the newest (the one answered) first.  The body of an
    authentication is its [Account] field. *)
Record Cloud := {
  authenticateReply : list Request -> Reply (option string);
  manifestReply : list Request -> Reply (list ManifestEntry);
  stateReply : list Request -> Reply DysonState;
  patchReply : list Request -> Reply DysonState
}.

(** The fields of a [DysonClient], and the requests it has sent so far,
    the newest first. *)
Record Client := {
  email : string;
  password : string;
  apiHost : string;
  authToken : option string;
  devices : list DysonDevice;
  sent : list Request
}.

(** The client as the constructor leaves it, the region's host looked up. *)
Definition newClient (email password apiHost : string) : Client :=
  {| email := email; password := password; apiHost := apiHost;
     authToken := None; devices := []; sent := [] |}.

Definition withToken (t : option string) (c : Client) : Client :=
  {| email := email c; password := password c; apiHost := apiHost c;
     authToken := t; devices := devices c; sent := sent c |}.

Definition withDevices (ds : list DysonDevice) (c : Client) : Client :=
  {| email := email c; password := password c; apiHost := apiHost c;
     authToken := authToken c; devices := ds; sent := sent c |}.

Definition record (req : Request) (c : Client) : Client :=
  {| email := email c; password := password c; apiHost := apiHost c;
     authToken := authToken c; devices := devices c; sent := req :: sent c |}.

(** ** Methods as state transformers *)

Inductive Outcome (A : Type) :=
| Return (a : A)
| Throw (e : ClientError)
| OutOfFuel.                    (* the run was cut off: it had not ended *)
Arguments Return {A} a.
Arguments Throw {A} e.
Arguments OutOfFuel {A}.

Definition M (A : Type) : Type := Client -> Outcome A * Client.

Definition ret {A} (a : A) : M A := fun c => (Return a, c).

Definition throw {A} (e : ClientError) : M A := fun c => (Throw e, c).

Definition bind {A B} (m : M A) (k : A -> M B) : M B :=
  fun c =>
    match m c with
    | (Return a, c') => k a c'
    | (Throw e, c') => (Throw e, c')
    | (OutOfFuel, c') => (OutOfFuel, c')
    end.

Definition lift {A} (o : Outcome A) : M A := fun c => (o, c).

Definition this : M Client := fun c => (Return c, c).

Definition modify (f : Client -> Client) : M unit := fun c => (Return tt, f c).

Declare Scope client_scope.
Delimit Scope client_scope with client.
Notation "x <- m ;; k" := (bind m (fun x => k))
  (at level 100, m at next level, right associativity) : client_scope.
Notation "m ;; k" := (bind m (fun _ => k))
  (at level 100, right associativity) : client_scope.

Section Methods.

Import Pure.
Local Open Scope client_scope.

Variable cloud : Cloud.

(** [await fetch(...)]: the request is sent and the cloud's reply awaited. *)
Definition fetch {A} (req : Request) (reply : list Request -> Reply A)
  : M (Response (string + A)) :=
  fun c =>
    let c' := record req c in
    match reply (sent c') with
    | Rejected => (Throw TransportFailure, c')
    | Answered r => (Return (readable r), c')
    | Garbled r => (Return (unreadable r), c')
    end.

(** [await response.json()] and the first use of the value: the body as
    the endpoint documents it, or what the runtime throws. *)
Definition json {A} (response : Response (string + A)) : M A :=
  match body response with
  | inr data => ret data
  | inl message => throw (UnexpectedBody message)
  end.

Definition authenticate : M unit :=
  c <- this ;;
  response <- fetch (ReqAuthenticate (apiHost c) (email c) (password c))
                    (authenticateReply cloud) ;;
  if negb (ok response) then
    if status response =? 401 then throw InvalidCredentials
    else throw (AuthenticationFailed (status response) (statusText response))
  else
    data <- json response ;;
    modify (withToken data).

(** [if (!this.authToken) await this.authenticate()] *)
Definition ensureAuthenticated : M unit :=
  c <- this ;;
  if negb (truthy (authToken c)) then authenticate else ret tt.

(** [getDevices] calls itself after a 401; [fuel] bounds the calls. *)
Fixpoint getDevices (fuel : nat) : M (list DysonDevice) :=
  match fuel with
  | O => fun c => (OutOfFuel, c)
  | S fuel' =>
      ensureAuthenticated ;;
      c <- this ;;
      response <- fetch (ReqManifest (apiHost c) (authToken c))
                        (manifestReply cloud) ;;
      if negb (ok response) then
        if status response =? 401 then
          modify (withToken None) ;;
          authenticate ;;
          getDevices fuel'
        else throw (GetDevicesFailed (status response))
      else
        data <- json response ;;
        modify (withDevices (map toDevice data)) ;;
        c <- this ;;
        ret (devices c)
  end.

(** The search of [getDevice] in the directory, once it is there. *)
Definition lookupDevice (deviceId : option string) (ds : list DysonDevice)
  : Outcome DysonDevice :=
  if truthy deviceId then
    match find (fun d => (serial d =? asString deviceId)%string) ds with
    | Some device => Return device
    | None => Throw (DeviceNotFound (asString deviceId))
    end
  else
    match ds with
    | [] => Throw NoDevicesFound
    | device :: _ => Return device
    end.

Definition getDevice (fuel : nat) (deviceId : option string) : M DysonDevice :=
  c <- this ;;
  (if (List.length (devices c) =? 0)%nat
   then getDevices fuel ;; ret tt
   else ret tt) ;;
  c <- this ;;
  lift (lookupDevice deviceId (devices c)).

Definition getDeviceStatus (fuel : nat) (deviceId : option string)
  : M DeviceStatus :=
  ensureAuthenticated ;;
  device <- getDevice fuel deviceId ;;
  c <- this ;;
  response <- fetch (ReqGetState (apiHost c) (serial device) (authToken c))
                    (stateReply cloud) ;;
  if negb (ok response) then throw (GetStatusFailed (status response))
  else
    state <- json response ;;
    ret (toStatus device state).

Definition setDeviceState (fuel : nat) (deviceId : option string)
           (state : DysonState) : M DeviceStatus :=
  ensureAuthenticated ;;
  device <- getDevice fuel deviceId ;;
  c <- this ;;
  response <- fetch (ReqPatchState (apiHost c) (serial device) (authToken c) state)
                    (patchReply cloud) ;;
  if negb (ok response) then throw (StateUpdateFailed (status response))
  else getDeviceStatus fuel (Some (serial device)).

Definition setFanSpeed (fuel : nat) (deviceId : option string) (speed : string)
  : M DeviceStatus :=
  match fanSpeedFields speed with
  | inl e => throw e
  | inr fields => setDeviceState fuel deviceId fields
  end.

Definition onOff (enabled : bool) : string := if enabled then "ON" else "OFF".

Definition setOscillation (fuel : nat) (deviceId : option string) (enabled : bool)
  : M DeviceStatus :=
  setDeviceState fuel deviceId
    {| fpwr := None; fnsp := None; oson := Some (onOff enabled); nmod := None;
       auto := None; hact := None; tact := None; pact := None; vact := None;
       wire_pm25 := None; wire_pm10 := None; noxl := None |}.

Definition setNightMode (fuel : nat) (deviceId : option string) (enabled : bool)
  : M DeviceStatus :=
  setDeviceState fuel deviceId
    {| fpwr := None; fnsp := None; oson := None; nmod := Some (onOff enabled);
       auto := None; hact := None; tact := None; pact := None; vact := None;
       wire_pm25 := None; wire_pm10 := None; noxl := None |}.

Definition getAirQuality (fuel : nat) (deviceId : option string) : M AirQuality :=
  st <- getDeviceStatus fuel deviceId ;;
  match airQuality st with
  | None => throw AirQualityUnavailable
  | Some aq => ret aq
  end.

End Methods.

(** ** Clouds and clients to run the methods on *)

Module Demo.

Definition entry : ManifestEntry :=
  {| Serial := "A1B-EU-KDA0123A"; Name := Some "Bedroom"; ProductType := "438";
     ConnectionType := "wss"; LocalCredentials := None |}.

Definition second : ManifestEntry :=
  {| Serial := "C2D-EU-MHA4567B"; Name := None; ProductType := "999";
     ConnectionType := "wss"; LocalCredentials := None |}.

Definition wire : DysonState :=
  {| fpwr := Some "ON"; fnsp := Some "0007"; oson := Some "OFF";
     nmod := Some "OFF"; auto := Some "OFF"; hact := Some "0045";
     tact := Some "2982"; pact := None; vact := Some "0002";
     wire_pm25 := Some "0008"; wire_pm10 := Some "0011"; noxl := Some "0003" |}.

Definition answer {A} (code : Z) (a : A) : Reply A :=
  Answered {| status := code; statusText := ""; body := a |}.

Definition isManifest (r : Request) : bool :=
  match r with ReqManifest _ _ => true | _ => false end.

Definition isAuthenticate (r : Request) : bool :=
  match r with ReqAuthenticate _ _ _ => true | _ => false end.

(** A cloud that grants every request. *)
Definition steady : Cloud :=
  {| authenticateReply := fun _ => answer 200 (Some "token");
     manifestReply := fun _ => answer 200 [entry; second];
     stateReply := fun _ => answer 200 wire;
     patchReply := fun _ => answer 200 emptyState |}.

(** A cloud that answers the first [k] manifest requests with 401. *)
Definition expiring (k : nat) : Cloud :=
  {| authenticateReply := fun _ => answer 200 (Some "token");
     manifestReply := fun h =>
       if (List.length (filter isManifest h) <=? k)%nat
       then answer 401 [] else answer 200 [entry; second];
     stateReply := fun _ => answer 200 wire;
     patchReply := fun _ => answer 200 emptyState |}.

(** A cloud that answers every manifest request with 401. *)
Definition revoked : Cloud :=
  {| authenticateReply := fun _ => answer 200 (Some "token");
     manifestReply := fun _ => answer 401 [];
     stateReply := fun _ => answer 200 wire;
     patchReply := fun _ => answer 200 emptyState |}.

(** A cloud that answers the state reads and updates with 401. *)
Definition refusing : Cloud :=
  {| authenticateReply := fun _ => answer 200 (Some "token");
     manifestReply := fun _ => answer 200 [entry; second];
     stateReply := fun _ => answer 401 emptyState;
     patchReply := fun _ => answer 401 emptyState |}.

(** A cloud with no device in the account. *)
Definition vacant : Cloud :=
  {| authenticateReply := fun _ => answer 200 (Some "token");
     manifestReply := fun _ => answer 200 [];
     stateReply := fun _ => answer 200 wire;
     patchReply := fun _ => answer 200 emptyState |}.

Definition fresh : Client :=
  newClient "user@example.com" "secret" "appapi.cp.dyson.com".

(** A client with a session and the directory fetched. *)
Definition signedIn : Client :=
  withDevices (map Pure.toDevice [entry; second]) (withToken (Some "token") fresh).

(** A wire state whose pm25 field is there, and empty. *)
Definition blankPm25 : DysonState :=
  {| fpwr := Some "ON"; fnsp := Some "0004"; oson := Some "OFF";
     nmod := Some "OFF"; auto := Some "OFF"; hact := None; tact := None;
     pact := None; vact := None; wire_pm25 := Some ""; wire_pm10 := None;
     noxl := None |}.

(** A wire state with a humidity, whose temperature field is empty. *)
Definition blankTact : DysonState :=
  {| fpwr := Some "ON"; fnsp := Some "0004"; oson := Some "OFF";
     nmod := Some "OFF"; auto := Some "OFF"; hact := Some "0045";
     tact := Some ""; pact := None; vact := None; wire_pm25 := None;
     wire_pm10 := None; noxl := None |}.

(** A cloud whose devices report no field at all. *)
Definition mute : Cloud :=
  {| authenticateReply := fun _ => answer 200 (Some "token");
     manifestReply := fun _ => answer 200 [entry; second];
     stateReply := fun _ => answer 200 emptyState;
     patchReply := fun _ => answer 200 emptyState |}.

(** A client with a session and no directory yet. *)
Definition session : Client := withToken (Some "token") fresh.

End Demo.

(** ** Words of the specification *)

(** A field that is there and not the empty string. *)
Definition nonEmpty (v : option string) : Prop :=
  exists s, v = Some s /\ s <> "".

(** ** What a run sends and throws *)

(** A run stays within [R] and [E] when every request it sends is in [R]
    and every error it throws is in [E]. *)
Definition within {A} (R : Request -> Prop) (E : ClientError -> Prop) (m : M A) : Prop :=
  forall c,
    (exists pre, sent (snd (m c)) = (pre ++ sent c)%list /\ Forall R pre)
    /\ (forall e, fst (m c) = Throw e -> E e).

Definition notPatch (req : Request) : Prop :=
  match req with ReqPatchState _ _ _ _ => False | _ => True end.

Definition carries (state : DysonState) (req : Request) : Prop :=
  match req with ReqPatchState _ _ _ fields => fields = state | _ => True end.

Definition notFanSpeed (e : ClientError) : Prop := e <> InvalidFanSpeed.

(** A reply that is a response of status [code], whatever its body. *)
Definition answeredWith {A} (code : Z) (reply : Reply A) : Prop :=
  match reply with
  | Rejected => False
  | Answered r => status r = code
  | Garbled r => status r = code
  end.

(** ** The constructor *)

Module Construct.

Import JsString.

(** [DYSON_API_HOSTS], the hosts by region. *)
Definition DYSON_API_HOSTS (country : string) : option string :=
  if (country =? "US")%string then Some "appapi.cp.dyson.com"
  else if (country =? "GB")%string then Some "appapi.cp.dyson.co.uk"
  else if (country =? "DE")%string then Some "appapi.cp.dyson.de"
  else if (country =? "FR")%string then Some "appapi.cp.dyson.fr"
  else if (country =? "AU")%string then Some "appapi.cp.dyson.com.au"
  else if (country =? "CN")%string then Some "appapi.cp.dyson.cn"
  else None.

(** [new DysonClient(email, password, country)], the country 'US' when it
    is not given.  The country is kept in upper case and only used here,
    to choose the host.  Of the letters outside ASCII the long s alone has
    its upper case among the letters of the codes, and with it 'US' alone
    is spelt, whose host is the one of a miss too. *)
Definition construct (email password : string) (country : option string)
  : Client :=
  let country := toUpperCase (match country with Some c => c | None => "US" end) in
  newClient email password
    (match DYSON_API_HOSTS country with
     | Some host => host
     | None => "appapi.cp.dyson.com"
     end).

End Construct.

(** ** JSON.stringify *)

Module Json.

Import JsNumber.

#[local] Set Warnings "-register-all".

Inductive value :=
| JNull
| JBool (b : bool)
| JNumber (x : float)
| JString (s : string)
| JObject (fields : list (string * value)).

Definition newline : string := String "010" EmptyString.
Definition doubleQuote : string := String "034" EmptyString.
Definition backslash : string := String "092" EmptyString.

Definition hexDigit (n : N) : ascii :=
  if (n <? 10)%N then ascii_of_N (48 + n) else ascii_of_N (87 + n).

(** A character inside a JSON string: the quote, the backslash and the
    control characters are escaped. *)
Definition quoteChar (c : ascii) : string :=
  let n := N_of_ascii c in
  if (n =? 8)%N then backslash ++ "b"
  else if (n =? 9)%N then backslash ++ "t"
  else if (n =? 10)%N then backslash ++ "n"
  else if (n =? 12)%N then backslash ++ "f"
  else if (n =? 13)%N then backslash ++ "r"
  else if (n =? 34)%N then backslash ++ doubleQuote
  else if (n =? 92)%N then backslash ++ backslash
  else if (n <? 32)%N
       then backslash ++ "u00"
            ++ String (hexDigit (n / 16)) (String (hexDigit (n mod 16)) "")
       else String c "".

Fixpoint quoteChars (s : string) : string :=
  match s with
  | EmptyString => EmptyString
  | String c rest => quoteChar c ++ quoteChars rest
  end.

Definition quote (s : string) : string :=
  doubleQuote ++ quoteChars s ++ doubleQuote.

Definition isFinite (x : float) : bool :=
  match Prim2SF x with
  | S754_nan | S754_infinity _ => false
  | _ => true
  end.

(** [JSON.stringify(v, null, 2)] at the indentation [indent]. *)
Fixpoint stringifyAt (indent : string) (v : value) : string :=
  match v with
  | JNull => "null"
  | JBool b => if b then "true" else "false"
  | JNumber x => if isFinite x then toString x else "null"
  | JString s => quote s
  | JObject fields =>
      match fields with
      | [] => "{}"
      | _ =>
          let inner := indent ++ "  " in
          "{" ++ newline ++ inner
          ++ (fix members (fs : list (string * value)) : string :=
                match fs with
                | [] => ""
                | [(k, x)] => quote k ++ ": " ++ stringifyAt inner x
                | (k, x) :: rest =>
                    quote k ++ ": " ++ stringifyAt inner x
                    ++ "," ++ newline ++ inner ++ members rest
                end) fields
          ++ newline ++ indent ++ "}"
      end
  end.

Definition stringify (v : value) : string := stringifyAt "" v.

End Json.

(** ** The tool server (index.ts) *)

Module Server.

Import JsString JsNumber Pure Json.

(** The arguments of a call, as the schemas type them. *)
Record Arguments := {
  device_id : option string;
  speed : option string;
  enabled : option bool
}.

(** What a call answers: the text of its one content item and the error
    flag, false when the answer carries none. *)
Record ToolResult := {
  text : string;
  isError : bool
}.

Inductive Tool :=
| get_device_status
| set_fan_speed
| set_oscillation
| get_air_quality
| set_night_mode.

(** A tool as the list of tools describes it: its name and the arguments
    its schema requires. *)
Definition toolName (t : Tool) : string :=
  match t with
  | get_device_status => "get_device_status"
  | set_fan_speed => "set_fan_speed"
  | set_oscillation => "set_oscillation"
  | get_air_quality => "get_air_quality"
  | set_night_mode => "set_night_mode"
  end.

Definition required (t : Tool) : list string :=
  match t with
  | set_fan_speed => ["speed"]
  | set_oscillation | set_night_mode => ["enabled"]
  | get_device_status | get_air_quality => []
  end.

(** The answer to ListTools, in its order. *)
Definition listTools : list Tool :=
  [get_device_status; set_fan_speed; set_oscillation; get_air_quality;
   set_night_mode].

(** The case of the [switch] a name selects. *)
Definition route (name : string) : option Tool :=
  if (name =? "get_device_status")%string then Some get_device_status
  else if (name =? "set_fan_speed")%string then Some set_fan_speed
  else if (name =? "set_oscillation")%string then Some set_oscillation
  else if (name =? "get_air_quality")%string then Some get_air_quality
  else if (name =? "set_night_mode")%string then Some set_night_mode
  else None.

Definition onOffText (b : bool) : string := if b then "on" else "off".

(** The object get_device_status prints. *)
Definition statusReport (st : DeviceStatus) : value :=
  JObject
    [("device", JObject [("serial", JString (status_serial st));
                         ("name", JString (status_name st))]);
     ("state", JObject [("power", JString (onOffText (power st)));
                        ("fanSpeed", JString (fanSpeed st));
                        ("oscillation", JString (onOffText (oscillation st)));
                        ("nightMode", JString (onOffText (nightMode st)));
                        ("autoMode", JString (onOffText (autoMode st)))]);
     ("airQuality",
      match airQuality st with
      | Some aq =>
          JObject [("pm25", JNumber (pm25 aq));
                   ("pm10", JNumber (pm10 aq));
                   ("voc", JNumber (voc aq));
                   ("no2", JNumber (no2 aq));
                   ("humidity", JString (toString (humidity aq) ++ "%"));
                   ("temperature",
                    JString (formatTemperature (temperature aq) UnitC));
                   ("level", JString (getAirQualityLevel (pm25 aq)))]
      | None => JNull
      end)].

Definition fanSpeedReport (st : DeviceStatus) : value :=
  JObject
    [("message", JString ("Fan speed set to " ++ fanSpeed st));
     ("device", JString (status_name st));
     ("newState", JObject [("power", JString (onOffText (power st)));
                           ("fanSpeed", JString (fanSpeed st));
                           ("autoMode", JString (onOffText (autoMode st)))])].

Definition enabledText (b : bool) : string :=
  if b then "enabled" else "disabled".

Definition oscillationReport (enabled : bool) (st : DeviceStatus) : value :=
  JObject
    [("message", JString ("Oscillation " ++ enabledText enabled));
     ("device", JString (status_name st));
     ("oscillation", JString (onOffText (oscillation st)))].

Definition nightModeReport (enabled : bool) (st : DeviceStatus) : value :=
  JObject
    [("message", JString ("Night mode " ++ enabledText enabled));
     ("device", JString (status_name st));
     ("nightMode", JString (onOffText (nightMode st)))].

(** [x < 3 ? 'Low' : x < 6 ? 'Moderate' : 'High'] *)
Definition indexText (x : float) : string :=
  if (x <? 3)%float then "Low"
  else if (x <? 6)%float then "Moderate" else "High".

Definition humidityText (x : float) : string :=
  if (x <? 30)%float then "Too dry"
  else if (60 <? x)%float then "Too humid" else "Comfortable".

(** The object get_air_quality prints. *)
Definition airQualityReport (aq : AirQuality) : value :=
  JObject
    [("pm25", JObject [("value", JNumber (pm25 aq));
                       ("unit", JString "µg/m³");
                       ("level", JString (getAirQualityLevel (pm25 aq)))]);
     ("pm10", JObject [("value", JNumber (pm10 aq));
                       ("unit", JString "µg/m³")]);
     ("voc", JObject [("value", JNumber (voc aq));
                      ("unit", JString "index");
                      ("description", JString (indexText (voc aq)))]);
     ("no2", JObject [("value", JNumber (no2 aq));
                      ("unit", JString "index");
                      ("description", JString (indexText (no2 aq)))]);
     ("humidity", JObject [("value", JNumber (humidity aq));
                           ("unit", JString "%");
                           ("description",
                            JString (humidityText (humidity aq)))]);
     ("temperature",
      JObject [("celsius", JNumber (temperature aq));
               ("fahrenheit",
                JNumber (round (temperature aq * 9 / 5 + 32)%float))])].

Section Handler.

(** The message of the error a rejected [fetch] throws is the runtime's. *)
Variable transportMessage : string.
Variable cloud : Cloud.

(** [error.message] of what the client throws. *)
Definition message (e : ClientError) : string :=
  match e with
  | InvalidCredentials => "Invalid Dyson credentials"
  | AuthenticationFailed status statusText =>
      "Authentication failed: " ++ toString (JsNumber.ofZ status) ++ " " ++ statusText
  | GetDevicesFailed status =>
      "Failed to get devices: " ++ toString (JsNumber.ofZ status)
  | DeviceNotFound deviceId => "Device not found: " ++ deviceId
  | NoDevicesFound => "No Dyson devices found in account"
  | GetStatusFailed status =>
      "Failed to get device status: " ++ toString (JsNumber.ofZ status)
  | StateUpdateFailed status =>
      "Failed to set device state: " ++ toString (JsNumber.ofZ status)
  | InvalidFanSpeed =>
      "Fan speed must be 1-10 or " ++ doubleQuote ++ "auto" ++ doubleQuote
  | AirQualityUnavailable => "Air quality data not available for this device"
  | TransportFailure => transportMessage
  | UnexpectedBody message => message
  end.

(** The answer of the [catch] clause. *)
Definition failure (msg : string) : ToolResult :=
  {| text := "Error: " ++ msg; isError := true |}.

Definition success (v : value) : ToolResult :=
  {| text := stringify v; isError := false |}.

(** A method of the client awaited inside the [try]: what it returns is
    printed, what it throws is caught; [None] when the run is cut off. *)
Definition respond {A} (m : M A) (report : A -> value)
  : Client -> option ToolResult * Client :=
  fun c =>
    match m c with
    | (Return a, c') => (Some (success (report a)), c')
    | (Throw e, c') => (Some (failure (message e)), c')
    | (OutOfFuel, c') => (None, c')
    end.

(** An error thrown by the handler itself, before any call of the client. *)
Definition reject (msg : string) : Client -> option ToolResult * Client :=
  fun c => (Some (failure msg), c).

Definition speedRequired : string :=
  "Speed is required. Use 1-10 or " ++ doubleQuote ++ "auto" ++ doubleQuote.

Definition enabledRequired : string :=
  "Enabled parameter is required (true/false)".

Definition handle (fuel : nat) (tool : Tool) (args : Arguments)
  : Client -> option ToolResult * Client :=
  match tool with
  | get_device_status =>
      respond (getDeviceStatus cloud fuel (device_id args)) statusReport
  | set_fan_speed =>
      if negb (Pure.truthy (speed args)) then reject speedRequired
      else respond (setFanSpeed cloud fuel (device_id args) (asString (speed args)))
                   fanSpeedReport
  | set_oscillation =>
      match enabled args with
      | None => reject enabledRequired
      | Some on =>
          respond (setOscillation cloud fuel (device_id args) on)
                  (oscillationReport on)
      end
  | get_air_quality =>
      respond (getAirQuality cloud fuel (device_id args)) airQualityReport
  | set_night_mode =>
      match enabled args with
      | None => reject enabledRequired
      | Some on =>
          respond (setNightMode cloud fuel (device_id args) on)
                  (nightModeReport on)
      end
  end.

(** The handler of CallTool. *)
Definition callTool (fuel : nat) (name : string) (args : Arguments)
  : Client -> option ToolResult * Client :=
  match route name with
  | Some tool => handle fuel tool args
  | None => reject ("Unknown tool: " ++ name)
  end.

End Handler.

End Server.

(** ** What the statements about the tool server speak of *)

(** Is the argument of this name in the call?  A speed that is the empty
    string counts as missing. *)
Definition supplied (args : Server.Arguments) (argument : string) : bool :=
  if (argument =? "speed")%string then Pure.truthy (Server.speed args)
  else if (argument =? "enabled")%string
       then match Server.enabled args with Some _ => true | None => false end
       else true.

(** A tool that only reads. *)
Definition reads (tool : Server.Tool) : bool :=
  match tool with
  | Server.get_device_status | Server.get_air_quality => true
  | _ => false
  end.

(** The hosts of the table. *)
Definition hosts : list string :=
  ["appapi.cp.dyson.com"; "appapi.cp.dyson.co.uk"; "appapi.cp.dyson.de";
   "appapi.cp.dyson.fr"; "appapi.cp.dyson.com.au"; "appapi.cp.dyson.cn"].

(** ** Specifications of runs *)

(** From a state in [P], the run of [m] sends requests in [R] only, ends
    in [Q] when it returns and in [E] when it throws or is cut off. *)
Definition spec {A} (R : Request -> Prop) (P : Client -> Prop) (m : M A)
           (E : Client -> Prop) (Q : A -> Client -> Prop) : Prop :=
  forall c, P c ->
    (exists pre, sent (snd (m c)) = (pre ++ sent c)%list /\ Forall R pre)
    /\ match fst (m c) with
       | Return a => Q a (snd (m c))
       | _ => E (snd (m c))
       end.

(** The configuration of the client: what the constructor sets. *)
Definition config (c : Client) : string * string * string :=
  (email c, password c, apiHost c).

(** A request addressed as the configuration says: to its host, and an
    authentication with its credentials. *)
Definition addressed (cfg : string * string * string) (req : Request) : Prop :=
  match req with
  | ReqAuthenticate host email password => (email, password, host) = cfg
  | ReqManifest host _ | ReqGetState host _ _ | ReqPatchState host _ _ _ =>
      host = snd cfg
  end.

(** A run keeps the configuration: it ends with the email, the password and
    the host it started with, and sent its requests to that host, the
    credentials in the authentications. *)
Definition keepsConfig {A} (m : M A) : Prop :=
  forall c,
    config (snd (m c)) = config c
    /\ exists pre,
         sent (snd (m c)) = (pre ++ sent c)%list
         /\ Forall (addressed (config c)) pre.

(** [f] reads off the client [c] what it read off [c0]. *)
Definition kept {T} (f : Client -> T) (c0 c : Client) : Prop := f c = f c0.

(** A request that needs a session carries a token that is not empty. *)
Definition tokened (req : Request) : Prop :=
  match req with
  | ReqAuthenticate _ _ _ => True
  | ReqManifest _ token | ReqGetState _ _ token | ReqPatchState _ _ token _ =>
      Pure.truthy token = true
  end.

(** The cloud grants no empty token. *)
Definition grantsTokens (cloud : Cloud) : Prop :=
  forall history response,
    authenticateReply cloud history = Answered response ->
    ok response = true -> Pure.truthy (body response) = true.

Definition sendsTokened {A} (m : M A) : Prop :=
  forall c, exists pre,
    sent (snd (m c)) = (pre ++ sent c)%list /\ Forall tokened pre.

(** Any client, and a client that holds a token. *)
Definition anyhow (c : Client) : Prop := True.

Definition signed (c : Client) : Prop := Pure.truthy (authToken c) = true.

(** A run that keeps the configuration and, against a cloud that grants
    tokens, sends every request under a token. *)
Definition disciplined (cloud : Cloud) {A} (m : M A) : Prop :=
  keepsConfig m /\ (grantsTokens cloud -> sendsTokened m).

(** The requests and the errors of each method. *)
Definition authRequest (req : Request) : Prop :=
  match req with ReqAuthenticate _ _ _ => True | _ => False end.

Definition directoryRequest (req : Request) : Prop :=
  match req with
  | ReqAuthenticate _ _ _ | ReqManifest _ _ => True
  | _ => False
  end.

Definition authError (e : ClientError) : Prop :=
  match e with
  | InvalidCredentials | AuthenticationFailed _ _ | TransportFailure
  | UnexpectedBody _ => True
  | _ => False
  end.

Definition directoryError (e : ClientError) : Prop :=
  match e with
  | GetDevicesFailed _ => True
  | _ => authError e
  end.

Definition lookupError (e : ClientError) : Prop :=
  match e with
  | DeviceNotFound _ | NoDevicesFound => True
  | _ => directoryError e
  end.

Definition statusError (e : ClientError) : Prop :=
  match e with
  | GetStatusFailed _ => True
  | _ => lookupError e
  end.

Definition updateError (e : ClientError) : Prop :=
  match e with
  | StateUpdateFailed _ => True
  | _ => statusError e
  end.



Definition nightModeField (enabled : bool) : DysonState :=
  {| fpwr := None; fnsp := None; oson := None; nmod := Some (onOff enabled);
     auto := None; hact := None; tact := None; pact := None; vact := None;
     wire_pm25 := None; wire_pm10 := None; noxl := None |}.

(** A cloud whose manifest endpoint is out of order. *)
Definition outOfOrder : Cloud :=
  {| authenticateReply := fun _ => Demo.answer 200 (Some "token");
     manifestReply := fun _ => Demo.answer 503 [];
     stateReply := fun _ => Demo.answer 200 Demo.wire;
     patchReply := fun _ => Demo.answer 200 emptyState |}.

(** A cloud whose account holds a device whose product type is the name
    of a member of [Object.prototype]. *)
Definition inheriting : Cloud :=
  {| authenticateReply := fun _ => Demo.answer 200 (Some "token");
     manifestReply := fun _ =>
       Demo.answer 200
         [Demo.entry;
          {| Serial := "E3F-EU-NHA8901C"; Name := None;
             ProductType := "constructor"; ConnectionType := "wss";
             LocalCredentials := None |}];
     stateReply := fun _ => Demo.answer 200 Demo.wire;
     patchReply := fun _ => Demo.answer 200 emptyState |}.

(** A cloud whose manifest is an object where an array is expected. *)
Definition garbling : Cloud :=
  {| authenticateReply := fun _ => Demo.answer 200 (Some "token");
     manifestReply := fun _ =>
       Garbled {| status := 200; statusText := "";
                  body := "data.map is not a function" |};
     stateReply := fun _ => Demo.answer 200 Demo.wire;
     patchReply := fun _ => Demo.answer 200 emptyState |}.

(** The place of a label in the scale of air quality. *)
Definition bandRank (label : string) : nat :=
  if (label =? "Good")%string then 0
  else if (label =? "Moderate")%string then 1
  else if (label =? "Unhealthy for Sensitive Groups")%string then 2
  else if (label =? "Unhealthy")%string then 3
  else if (label =? "Very Unhealthy")%string then 4
  else 5.

(** The wire temperatures of four digits. *)
Definition wireTemperatures : list Z :=
  map Z.of_nat (seq 0 (Z.to_nat 10000)).

Definition tenthsAboveFreezing (n : Z) : bool :=
  PrimFloat.eqb (Pure.kelvinToCelsius (JsNumber.ofZ n / 10)%float)
    (JsNumber.ofZ (n - 2731) / 10)%float.

(** ** Runs of the methods *)

Section Runs.

Context {A B : Type}.

Lemma bind_Return (m : M A) (k : A -> M B) c a c' :
  m c = (Return a, c') -> bind m k c = k a c'.
Proof. intros H. unfold bind. now rewrite H. Qed.

Lemma bind_Throw (m : M A) (k : A -> M B) c e c' :
  m c = (Throw e, c') -> bind m k c = (Throw e, c').
Proof. intros H. unfold bind. now rewrite H. Qed.

Lemma bind_OutOfFuel (m : M A) (k : A -> M B) c c' :
  m c = (OutOfFuel, c') -> bind m k c = (OutOfFuel, c').
Proof. intros H. unfold bind. now rewrite H. Qed.

End Runs.

Section Within.

Variables (R : Request -> Prop) (E : ClientError -> Prop).

Lemma within_ret {A} (a : A) : within R E (ret a).
Proof. intros c; split; [exists []; now split | discriminate]. Qed.

Lemma within_this : within R E this.
Proof. intros c; split; [exists []; now split | discriminate]. Qed.

Lemma within_throw {A} e : E e -> within R E (@throw A e).
Proof.
  intros He c; split; [exists []; now split | ].
  intros e' [= <-]; exact He.
Qed.

Lemma within_lift {A} (o : Outcome A) :
  (forall e, o = Throw e -> E e) -> within R E (lift o).
Proof. intros He c; split; [exists []; now split | exact He]. Qed.

Lemma within_modify f :
  (forall c, sent (f c) = sent c) -> within R E (modify f).
Proof.
  intros Hf c; split; [exists []; split; [apply Hf | constructor] | discriminate].
Qed.

Lemma within_bind {A B} (m : M A) (k : A -> M B) :
  within R E m -> (forall a, within R E (k a)) -> within R E (bind m k).
Proof.
  intros Hm Hk c. unfold bind.
  destruct (Hm c) as [[pre [Hs Hp]] He].
  destruct (m c) as [[a | e | ] c1]; cbn in *.
  - destruct (Hk a c1) as [[pre' [Hs' Hp']] He']. split; [ | exact He'].
    exists (pre' ++ pre)%list. rewrite Hs', Hs, app_assoc. split; [reflexivity | ].
    apply Forall_app; now split.
  - split; [now exists pre | intros e' [= <-]; now apply He].
  - split; [now exists pre | discriminate].
Qed.

Lemma within_fetch {A} req (reply : list Request -> Reply A) :
  R req -> E TransportFailure -> within R E (fetch req reply).
Proof.
  intros Hr He c. unfold fetch.
  destruct (reply _); cbn; (split; [exists [req]; split; [reflexivity | now constructor] | ]).
  - intros e [= <-]; exact He.
  - discriminate.
  - discriminate.
Qed.

Lemma within_json {A} (response : Response (string + A)) :
  (forall message, E (UnexpectedBody message)) -> within R E (json response).
Proof.
  intros He. unfold json.
  destruct (body response); [now apply within_throw | apply within_ret].
Qed.

End Within.

Lemma within_weaken {A} (R R' : Request -> Prop) (E E' : ClientError -> Prop) (m : M A) :
  (forall r, R r -> R' r) -> (forall e, E e -> E' e) -> within R E m -> within R' E' m.
Proof.
  intros HR HE Hm c. destruct (Hm c) as [[pre [Hs Hp]] He]. split.
  - exists pre; split; [exact Hs | ]. eapply Forall_impl; eauto.
  - intros e H; auto.
Qed.

Section MethodsWithin.

Variable cloud : Cloud.

Local Ltac step :=
  first
    [ apply within_bind; [ | intros ? ]
    | apply within_ret | apply within_this
    | apply within_throw; discriminate
    | apply within_modify; reflexivity
    | apply within_fetch; [exact I | discriminate]
    | apply within_json; discriminate ].

Lemma within_authenticate : within notPatch notFanSpeed (authenticate cloud).
Proof.
  unfold authenticate. repeat step.
  destruct (negb _); [destruct (_ =? _) | ]; repeat step.
Qed.

Lemma within_ensureAuthenticated :
  within notPatch notFanSpeed (ensureAuthenticated cloud).
Proof.
  unfold ensureAuthenticated. step; [step | ].
  destruct (negb _); [apply within_authenticate | step].
Qed.

Lemma within_getDevices fuel : within notPatch notFanSpeed (getDevices cloud fuel).
Proof.
  induction fuel as [ | fuel IH]; cbn [getDevices].
  - intros c; split; [exists []; now split | discriminate].
  - step; [apply within_ensureAuthenticated | ].
    do 2 (step; [step | ]).
    destruct (negb _); [destruct (_ =? _) | ].
    + step; [step | ]. step; [apply within_authenticate | exact IH].
    + step.
    + repeat step.
Qed.

Lemma within_getDevice fuel deviceId :
  within notPatch notFanSpeed (getDevice cloud fuel deviceId).
Proof.
  unfold getDevice. step; [step | ]. step.
  - destruct (_ =? _)%nat; [ | step]. step; [apply within_getDevices | step].
  - step; [step | ]. apply within_lift. unfold lookupDevice.
    intros e. destruct (Pure.truthy _).
    + destruct (find _ _); [discriminate | intros [= <-]; discriminate].
    + destruct (devices _); [intros [= <-]; discriminate | discriminate].
Qed.

Lemma within_getDeviceStatus fuel deviceId :
  within notPatch notFanSpeed (getDeviceStatus cloud fuel deviceId).
Proof.
  unfold getDeviceStatus. step; [apply within_ensureAuthenticated | ].
  step; [apply within_getDevice | ]. do 2 (step; [step | ]).
  destruct (negb _); repeat step.
Qed.

Lemma within_setDeviceState fuel deviceId state :
  within (carries state) notFanSpeed (setDeviceState cloud fuel deviceId state).
Proof.
  assert (Hw : forall r, notPatch r -> carries state r) by (now intros []).
  unfold setDeviceState.
  apply within_bind; [ | intros _].
  { eapply within_weaken; [exact Hw | | apply within_ensureAuthenticated]; auto. }
  apply within_bind; [ | intros device].
  { eapply within_weaken; [exact Hw | | apply within_getDevice]; auto. }
  apply within_bind; [apply within_this | intros c].
  apply within_bind; [ | intros response].
  { apply within_fetch; [reflexivity | discriminate]. }
  destruct (negb _); [apply within_throw; discriminate | ].
  eapply within_weaken; [exact Hw | | apply within_getDeviceStatus]; auto.
Qed.

End MethodsWithin.

(** ** Order of the doubles *)

Section FloatOrder.

(** Nothing above a positive double [b] is at most a double [a <= b]. *)
Lemma SFleb_false_above (ma mb : positive) (ea eb : Z) (x : spec_float) :
  ea < eb \/ (ea = eb /\ (ma <= mb)%positive) ->
  SpecFloat.SFltb (S754_finite false mb eb) x = true ->
  SpecFloat.SFleb x (S754_finite false ma ea) = false.
Proof.
  intros Hab Hlt.
  destruct x as [s | s | | s m e]; cbn in Hlt |- *;
    try discriminate; try (destruct s; (discriminate || reflexivity)).
  destruct s; cbn in Hlt |- *; try discriminate.
  rewrite Pos.compare_cont_spec in *. cbn in *.
  destruct (Z.compare_spec eb e), (Z.compare_spec e ea);
    try lia; try discriminate; try reflexivity.
  subst.
  destruct (Pos.compare_spec mb m), (Pos.compare_spec m ma);
    try lia; try discriminate; try reflexivity.
Qed.

Lemma leb_false_above (a b x : float) ma ea mb eb :
  Prim2SF a = S754_finite false ma ea ->
  Prim2SF b = S754_finite false mb eb ->
  ea < eb \/ (ea = eb /\ (ma <= mb)%positive) ->
  (b <? x)%float = true -> (x <=? a)%float = false.
Proof.
  intros Ha Hb Hab. rewrite ltb_spec, leb_spec, Ha, Hb.
  now apply SFleb_false_above.
Qed.

End FloatOrder.

(** From [b <? x] in the context, [x <=? a] is false for literals [a <= b]. *)
Ltac above a b :=
  match goal with
  | H : (b <? ?x)%float = true |- _ =>
      let F := fresh "F" in
      assert (F : (x <=? a)%float = false)
        by (eapply (leb_false_above a b x);
            [ reflexivity | reflexivity
            | first [ left; reflexivity | right; split; [reflexivity | discriminate] ]
            | exact H ])
  end.

Import JsString JsNumber Pure.

(** ** The pure helpers *)

Lemma strictEq_true v lit : strictEq v lit = true <-> v = Some lit.
Proof.
  destruct v as [s | ]; cbn; [ | split; discriminate].
  rewrite String.eqb_eq. split; congruence.
Qed.

Lemma parseInt_no_integer s : leadingInteger s = None -> parseInt s = nan.
Proof. unfold parseInt. now intros ->. Qed.

Lemma truthy_nonEmpty v : truthy v = true <-> nonEmpty v.
Proof.
  unfold truthy, nonEmpty. destruct v as [s | ].
  - rewrite negb_true_iff, String.eqb_neq. split.
    + intros H. now exists s.
    + now intros [s' [[= <-] H]].
  - split; [discriminate | now intros [s [H _]]].
Qed.

(** *** The built-ins and the repository's tests, run *)

Lemma parseInt_samples :
  map (fun s => toString (parseInt s))
    ["7"; "0007"; " 12abc"; "-0"; "abc"; ""; "+5"; "- 5"; "5.9"; "1e3";
     "0x10"; "-42"; "9007199254740993"; "99999999999999999999999"]
  = ["7"; "7"; "12"; "0"; "NaN"; "NaN"; "5"; "NaN"; "5"; "1";
     "0"; "-42"; "9007199254740992"; "1e+23"].
Proof. vm_compute. reflexivity. Qed.

Lemma toString_samples :
  map toString
    [22.5; 0.1; 0.1 + 0.2; 100; -1.5; 1e21; 123456789012345680000; 1e-7;
     0.000001; 5e-324; 1.7976931348623157e308; nan; infinity; (-0)]%float
  = ["22.5"; "0.1"; "0.30000000000000004"; "100"; "-1.5"; "1e+21";
     "123456789012345680000"; "1e-7"; "0.000001"; "5e-324";
     "1.7976931348623157e+308"; "NaN"; "Infinity"; "0"].
Proof. vm_compute. reflexivity. Qed.

Lemma round_samples :
  map (fun x => toString (round x))
    [0.5; -0.5; 2.5; -2.5; 0.49999999999999994; 72.5; 98.6; -3.6]%float
  = ["1"; "0"; "3"; "-2"; "0"; "73"; "99"; "-4"].
Proof. vm_compute. reflexivity. Qed.

(** tests/dyson-client.test.ts, the cases of formatTemperature and of
    getAirQualityLevel. *)
Lemma repository_tests :
  formatTemperature 22.5 UnitC = "22.5°C"
  /\ formatTemperature 20 UnitC = "20°C"
  /\ formatTemperature 22.5 UnitF = "73°F"
  /\ formatTemperature 21 UnitF = "70°F"
  /\ map getAirQualityLevel
       [0; 6; 12; 12.1; 13; 25; 35; 35.5; 36; 45; 55; 55.5; 56; 100; 150;
        150.5; 151; 200; 250; 250.5; 251; 300; 500]%float
     = ["Good"; "Good"; "Good"; "Moderate"; "Moderate"; "Moderate";
        "Moderate"; "Unhealthy for Sensitive Groups";
        "Unhealthy for Sensitive Groups"; "Unhealthy for Sensitive Groups";
        "Unhealthy for Sensitive Groups"; "Unhealthy"; "Unhealthy";
        "Unhealthy"; "Unhealthy"; "Very Unhealthy"; "Very Unhealthy";
        "Very Unhealthy"; "Very Unhealthy"; "Hazardous"; "Hazardous";
        "Hazardous"; "Hazardous"].
Proof. repeat split; vm_compute; reflexivity. Qed.

(** *** The fields of a fan speed *)

Lemma fanSpeedFields_auto speed :
  toUpperCase speed = "AUTO" ->
  fanSpeedFields speed = inr (fanFields "AUTO" "ON").
Proof. intros H. unfold fanSpeedFields. now rewrite H. Qed.

Lemma fanSpeedFields_number speed :
  toUpperCase speed <> "AUTO" ->
  fanSpeedFields speed
  = (let speedNum := parseInt speed in
     if isNaN speedNum || (speedNum <? 1)%float || (10 <? speedNum)%float
     then inl InvalidFanSpeed
     else inr (fanFields (padStart0 4 (toString speedNum)) "OFF")).
Proof.
  intros H. unfold fanSpeedFields.
  apply String.eqb_neq in H. now rewrite H.
Qed.

Lemma fanSpeedFields_decimal n :
  1 <= n <= 10 ->
  fanSpeedFields (decimal n) = inr (fanFields (padStart0 4 (decimal n)) "OFF")
  /\ String.length (padStart0 4 (decimal n)) = 4%nat.
Proof.
  intros Hn.
  assert (H : n = 1 \/ n = 2 \/ n = 3 \/ n = 4 \/ n = 5 \/ n = 6
              \/ n = 7 \/ n = 8 \/ n = 9 \/ n = 10) by lia.
  repeat (destruct H as [-> | H]); try subst n; split; vm_compute; reflexivity.
Qed.

Lemma fanSpeedFields_error speed e :
  fanSpeedFields speed = inl e -> e = InvalidFanSpeed.
Proof.
  unfold fanSpeedFields. destruct (_ =? _)%string; [discriminate | ].
  destruct (_ || _); [now intros [= <-] | discriminate].
Qed.

(** *** Air quality bands and temperatures *)

(** C8: getAirQualityLevel puts a pm25 value in the band whose upper bound
    is the first it does not exceed, the bounds inclusive: at most 12 is
    "Good", above 12 and at most 35 "Moderate", above 35 and at most 55
    "Unhealthy for Sensitive Groups", above 55 and at most 150 "Unhealthy",
    above 150 and at most 250 "Very Unhealthy", above 250 "Hazardous"; a
    bound belongs to the lower band: 12 is "Good", 12.01 is "Moderate".
    Every value, NaN too, gets one of the six labels. *)
Theorem getAirQualityLevel_bands (x : float) :
  ((x <=? 12)%float = true -> getAirQualityLevel x = "Good")
  /\ ((12 <? x)%float = true -> (x <=? 35)%float = true ->
      getAirQualityLevel x = "Moderate")
  /\ ((35 <? x)%float = true -> (x <=? 55)%float = true ->
      getAirQualityLevel x = "Unhealthy for Sensitive Groups")
  /\ ((55 <? x)%float = true -> (x <=? 150)%float = true ->
      getAirQualityLevel x = "Unhealthy")
  /\ ((150 <? x)%float = true -> (x <=? 250)%float = true ->
      getAirQualityLevel x = "Very Unhealthy")
  /\ ((250 <? x)%float = true -> getAirQualityLevel x = "Hazardous")
  /\ getAirQualityLevel 12 = "Good"
  /\ getAirQualityLevel 12.01 = "Moderate"
  /\ In (getAirQualityLevel x)
        ["Good"; "Moderate"; "Unhealthy for Sensitive Groups"; "Unhealthy";
         "Very Unhealthy"; "Hazardous"].
Proof.
  unfold getAirQualityLevel. repeat split.
  - intros ->. reflexivity.
  - intros H1 ->. above 12%float 12%float. now rewrite F.
  - intros H1 ->. above 12%float 35%float. above 35%float 35%float.
    now rewrite F, F0.
  - intros H1 ->. above 12%float 55%float. above 35%float 55%float.
    above 55%float 55%float. now rewrite F, F0, F1.
  - intros H1 ->. above 12%float 150%float. above 35%float 150%float.
    above 55%float 150%float. above 150%float 150%float.
    now rewrite F, F0, F1, F2.
  - intros H1. above 12%float 250%float. above 35%float 250%float.
    above 55%float 250%float. above 150%float 250%float.
    above 250%float 250%float. now rewrite F, F0, F1, F2, F3.
  - repeat (match goal with
            | |- context [if ?b then _ else _] => destruct b
            end; [cbn; tauto | ]).
    cbn; tauto.
Qed.

Lemma getAirQualityLevel_bands_witness :
  getAirQualityLevel 35 = "Moderate"
  /\ getAirQualityLevel 250.5 = "Hazardous".
Proof.
  split.
  - apply (proj1 (proj2 (getAirQualityLevel_bands 35))); reflexivity.
  - apply (proj1 (proj2 (proj2 (proj2 (proj2 (proj2
            (getAirQualityLevel_bands 250.5))))))); reflexivity.
Defined.

(** C9: formatTemperature renders the value as it is, followed by "°C", for
    Celsius, and [round (celsius * 9 / 5 + 32)] followed by "°F" for
    Fahrenheit; so 22.5 in Celsius is "22.5°C", and in Fahrenheit 0 is
    "32°F", 100 is "212°F" and 37 is "99°F". *)
Theorem formatTemperature_renders (celsius : float) :
  formatTemperature celsius UnitC = toString celsius ++ "°C"
  /\ formatTemperature celsius UnitF
     = toString (round (celsius * 9 / 5 + 32)%float) ++ "°F"
  /\ formatTemperature 22.5 UnitC = "22.5°C"
  /\ formatTemperature 0 UnitF = "32°F"
  /\ formatTemperature 100 UnitF = "212°F"
  /\ formatTemperature 37 UnitF = "99°F".
Proof.
  repeat split; vm_compute; reflexivity.
Qed.

(** X2: the wire value 2982, 298.2 K, reads 25.1 degrees: in doubles
    298.2 - 273.15 is a little above 25.05, and ten times it above 250.5. *)
Lemma kelvinToCelsius_2982 :
  toString (kelvinToCelsius (parseInt "2982" / 10)%float) = "25.1"
  /\ toString ((parseInt "2982" / 10 - 273.15) * 10)%float = "250.5000000000001".
Proof. split; vm_compute; reflexivity. Qed.

(** C3 as it is stated fails on a field that is there and empty: with an
    empty pm25 field and no other the air quality is null, and with an empty
    tact field the temperature is 0, where the formula of the claim gives
    NaN. *)
Lemma parseAirQuality_blank_field :
  (wire_pm25 Demo.blankPm25 <> None /\ parseAirQuality Demo.blankPm25 = None)
  /\ (tact Demo.blankTact = Some ""
      /\ isNaN (round ((parseInt "" / 10 - 273.15) * 10) / 10)%float = true
      /\ option_map (fun aq => toString (temperature aq))
           (parseAirQuality Demo.blankTact) = Some "0").
Proof.
  repeat split; try discriminate; vm_compute; reflexivity.
Qed.

(** C3, amended: the status has an air quality exactly when one of pm25,
    pact, hact is there and not empty; then pm25 is the parsed pm25 field,
    else the parsed pact, else 0; pm10, voc, no2 and humidity are their
    parsed fields, 0 without; the temperature is
    [round ((tact / 10 - 273.15) * 10) / 10], 0 without; "there" meaning
    there and not empty throughout. *)
Theorem parseAirQuality_projection (device : DysonDevice) (state : DysonState) :
  airQuality (toStatus device state) = parseAirQuality state
  /\ (parseAirQuality state <> None
      <-> nonEmpty (wire_pm25 state) \/ nonEmpty (pact state)
          \/ nonEmpty (hact state))
  /\ (forall aq, parseAirQuality state = Some aq ->
        pm25 aq = (if truthy (wire_pm25 state)
                   then parseInt (asString (wire_pm25 state))
                   else if truthy (pact state)
                        then parseInt (asString (pact state)) else 0%float)
        /\ pm10 aq = (if truthy (wire_pm10 state)
                      then parseInt (asString (wire_pm10 state)) else 0%float)
        /\ voc aq = (if truthy (vact state)
                     then parseInt (asString (vact state)) else 0%float)
        /\ no2 aq = (if truthy (noxl state)
                     then parseInt (asString (noxl state)) else 0%float)
        /\ humidity aq = (if truthy (hact state)
                          then parseInt (asString (hact state)) else 0%float)
        /\ temperature aq
           = (if truthy (tact state)
              then (round ((parseInt (asString (tact state)) / 10 - 273.15) * 10)
                    / 10)%float
              else 0%float)).
Proof.
  split; [reflexivity | ]. unfold parseAirQuality. split.
  - rewrite <- !truthy_nonEmpty.
    destruct (truthy (wire_pm25 state)), (truthy (pact state)),
      (truthy (hact state)); cbn; split; intros H; try discriminate; auto;
      try (exfalso; now apply H);
      destruct H as [H | [H | H]]; discriminate.
  - intros aq.
    destruct (negb (truthy (wire_pm25 state)) && negb (truthy (pact state))
              && negb (truthy (hact state))); [discriminate | ].
    intros [= <-]. cbn. repeat split.
Qed.

Lemma parseAirQuality_projection_witness :
  exists aq,
    parseAirQuality Demo.wire = Some aq
    /\ temperature aq
       = (round ((parseInt "2982" / 10 - 273.15) * 10) / 10)%float
    /\ pm25 aq = parseInt "0008".
Proof.
  eexists. split; [reflexivity | ].
  pose proof (proj2 (proj2 (parseAirQuality_projection
                              (toDevice Demo.entry) Demo.wire))
                _ eq_refl) as H.
  split; [apply H | apply H].
Defined.

(** *** Fan speeds *)

(** C5: a speed from 1 to 10, encoded by setFanSpeed as four digits and
    decoded by parseFanSpeed, comes back as its decimal string: the speeds
    "1" to "10" are sent as "0001" to "0010", zeros in front and four
    characters long, and these are read as "1" to "10" again, by
    parseFanSpeed and in the status read from a state that holds them ("7"
    is sent as "0007" and read as "7").  "auto", its four letters each in
    either case, is sent as "AUTO", with auto "ON", and "AUTO" is read as
    "auto". *)
Theorem fanSpeed_roundtrip :
  (forall n, 1 <= n <= 10 ->
     exists code,
       fanSpeedFields (decimal n) = inr (fanFields code "OFF")
       /\ code = padStart0 4 (decimal n)
       /\ parseFanSpeed (Some code) = decimal n
       /\ String.length code = 4%nat
       /\ (forall device,
             fanSpeed (toStatus device (fanFields code "OFF")) = decimal n))
  /\ map decimal [1; 2; 3; 4; 5; 6; 7; 8; 9; 10]
     = ["1"; "2"; "3"; "4"; "5"; "6"; "7"; "8"; "9"; "10"]
  /\ map fanSpeedFields ["1"; "2"; "3"; "4"; "5"; "6"; "7"; "8"; "9"; "10"]
     = map (fun code => inr (fanFields code "OFF"))
         ["0001"; "0002"; "0003"; "0004"; "0005"; "0006"; "0007"; "0008";
          "0009"; "0010"]
  /\ map (fun code => parseFanSpeed (Some code))
         ["0001"; "0002"; "0003"; "0004"; "0005"; "0006"; "0007"; "0008";
          "0009"; "0010"]
     = ["1"; "2"; "3"; "4"; "5"; "6"; "7"; "8"; "9"; "10"]
  /\ fanSpeedFields "7" = inr (fanFields "0007" "OFF")
  /\ parseFanSpeed (Some "0007") = "7"
  /\ (forall speed, toUpperCase speed = "AUTO" ->
        fanSpeedFields speed = inr (fanFields "AUTO" "ON")
        /\ parseFanSpeed (Some "AUTO") = "auto")
  /\ (forall a u t o : ascii,
        In a ["a"; "A"]%char -> In u ["u"; "U"]%char ->
        In t ["t"; "T"]%char -> In o ["o"; "O"]%char ->
        let speed := String a (String u (String t (String o ""))) in
        fanSpeedFields speed = inr (fanFields "AUTO" "ON")
        /\ fnsp (fanFields "AUTO" "ON") = Some "AUTO"
        /\ auto (fanFields "AUTO" "ON") = Some "ON"
        /\ parseFanSpeed (fnsp (fanFields "AUTO" "ON")) = "auto"
        /\ (forall device,
              fanSpeed (toStatus device (fanFields "AUTO" "ON")) = "auto"))
  /\ fanSpeedFields "auto" = inr (fanFields "AUTO" "ON").
Proof.
  repeat apply conj.
  - intros n Hn.
    assert (H : n = 1 \/ n = 2 \/ n = 3 \/ n = 4 \/ n = 5 \/ n = 6
                \/ n = 7 \/ n = 8 \/ n = 9 \/ n = 10) by lia.
    exists (padStart0 4 (decimal n)).
    repeat (destruct H as [-> | H]); try subst n;
      repeat apply conj; (try intros device; vm_compute; reflexivity).
  - vm_compute. reflexivity.
  - vm_compute. reflexivity.
  - vm_compute. reflexivity.
  - vm_compute. reflexivity.
  - vm_compute. reflexivity.
  - intros speed H. split; [ | reflexivity].
    unfold fanSpeedFields. now rewrite H.
  - intros a u t o Ha Hu Ht Ho speed. subst speed.
    cbn in Ha, Hu, Ht, Ho.
    destruct Ha as [<- | [<- | []]], Hu as [<- | [<- | []]],
      Ht as [<- | [<- | []]], Ho as [<- | [<- | []]];
      repeat apply conj; (try intros device; vm_compute; reflexivity).
  - vm_compute. reflexivity.
Qed.

Lemma fanSpeed_roundtrip_witness :
  (exists code,
     fanSpeedFields "3" = inr (fanFields code "OFF")
     /\ code = "0003" /\ parseFanSpeed (Some code) = "3"
     /\ String.length code = 4%nat
     /\ (forall device,
           fanSpeed (toStatus device (fanFields code "OFF")) = "3"))
  /\ fanSpeedFields "aUTo" = inr (fanFields "AUTO" "ON")
  /\ parseFanSpeed (fnsp (fanFields "AUTO" "ON")) = "auto".
Proof.
  split.
  - apply (proj1 fanSpeed_roundtrip 3). lia.
  - pose proof (proj1 (proj2 (proj2 (proj2 (proj2 (proj2 (proj2 (proj2
                   fanSpeed_roundtrip)))))))
                  "a" "U" "T" "o"
                  ltac:(now left) ltac:(right; now left)
                  ltac:(right; now left) ltac:(now left))%char as H.
    split; [exact (proj1 H) | exact (proj1 (proj2 (proj2 (proj2 H))))].
Defined.

(** ** The methods *)

(** The requests a run sent come on top of those sent before. *)
Lemma sent_grows {A} R E (m : M A) c :
  within R E m -> exists pre, sent (snd (m c)) = (pre ++ sent c)%list.
Proof. intros H. destruct (H c) as [[pre [Hs _]] _]. now exists pre. Qed.

Lemma ok_401 {A} (r : Response A) : status r = 401 -> ok r = false.
Proof. unfold ok. now intros ->. Qed.

Lemma ok_readable {A} (r : Response A) : ok (readable r) = ok r.
Proof. reflexivity. Qed.

Lemma ok_unreadable {A} (r : Response string) : ok (@unreadable A r) = ok r.
Proof. reflexivity. Qed.

Lemma ensureAuthenticated_session cloud c :
  truthy (authToken c) = true -> ensureAuthenticated cloud c = (Return tt, c).
Proof. intros H. unfold ensureAuthenticated, bind, this. now rewrite H. Qed.

(** An authentication, by the reply to its request. *)
Lemma authenticate_cases cloud c :
  let a := ReqAuthenticate (apiHost c) (email c) (password c) in
  let refused (code : Z) (text : string) :=
    Throw (if code =? 401 then InvalidCredentials
           else AuthenticationFailed code text) in
  authenticate cloud c
  = match authenticateReply cloud (a :: sent c) with
    | Rejected => (Throw TransportFailure, record a c)
    | Answered r =>
        if ok r then (Return tt, withToken (body r) (record a c))
        else (refused (status r) (statusText r), record a c)
    | Garbled r =>
        if ok r then (Throw (UnexpectedBody (body r)), record a c)
        else (refused (status r) (statusText r), record a c)
    end.
Proof.
  intros a refused. unfold authenticate, bind, this, fetch. cbn. fold a.
  destruct (authenticateReply cloud _) as [ | r | r]; [reflexivity | | ];
    cbv beta iota; [rewrite ok_readable | rewrite ok_unreadable];
    (destruct (ok r); cbn; [reflexivity | ]);
    unfold refused; destruct (status r =? 401); reflexivity.
Qed.

(** An authentication that throws has sent its request and changed nothing
    else. *)
Lemma authenticate_Throw cloud c e c' :
  authenticate cloud c = (Throw e, c') ->
  c' = record (ReqAuthenticate (apiHost c) (email c) (password c)) c.
Proof.
  rewrite authenticate_cases. cbn zeta.
  destruct (authenticateReply cloud _) as [ | r | r];
    [now intros [= _ <-] | | ];
    (destruct (ok r); [ | now intros [= _ <-]]);
    [discriminate | now intros [= _ <-]].
Qed.

Lemma authenticate_run cloud c response :
  let a := ReqAuthenticate (apiHost c) (email c) (password c) in
  authenticateReply cloud (a :: sent c) = Answered response ->
  ok response = true ->
  authenticate cloud c = (Return tt, withToken (body response) (record a c)).
Proof.
  intros a Hreply Hok. unfold authenticate, bind, this, fetch. cbn.
  fold a. rewrite Hreply. cbv beta iota. now rewrite ok_readable, Hok.
Qed.

(** One call of [getDevices] whose manifest request is answered. *)
Lemma getDevices_step cloud fuel c response :
  truthy (authToken c) = true ->
  let m := ReqManifest (apiHost c) (authToken c) in
  manifestReply cloud (m :: sent c) = Answered response ->
  getDevices cloud (S fuel) c
  = if ok response
    then (Return (map toDevice (body response)),
          withDevices (map toDevice (body response)) (record m c))
    else if status response =? 401
         then bind (authenticate cloud) (fun _ => getDevices cloud fuel)
                (withToken None (record m c))
         else (Throw (GetDevicesFailed (status response)), record m c).
Proof.
  intros Htoken m Hreply. cbn [getDevices].
  rewrite (bind_Return _ _ _ _ _ (ensureAuthenticated_session cloud c Htoken)).
  unfold bind at 1, this at 1. unfold bind at 1, fetch at 1. cbn.
  fold m. rewrite Hreply, ok_readable.
  destruct (ok response); cbn; [reflexivity | ].
  destruct (status response =? 401); reflexivity.
Qed.

(** One call of [getDevices] whose guard has returned, by the reply to its
    manifest request. *)
Lemma getDevices_cases cloud fuel c c1 :
  ensureAuthenticated cloud c = (Return tt, c1) ->
  let m := ReqManifest (apiHost c1) (authToken c1) in
  let again :=
    bind (authenticate cloud) (fun _ => getDevices cloud fuel)
      (withToken None (record m c1)) in
  getDevices cloud (S fuel) c
  = match manifestReply cloud (m :: sent c1) with
    | Rejected => (Throw TransportFailure, record m c1)
    | Answered r =>
        if ok r
        then (Return (map toDevice (body r)),
              withDevices (map toDevice (body r)) (record m c1))
        else if status r =? 401 then again
             else (Throw (GetDevicesFailed (status r)), record m c1)
    | Garbled r =>
        if ok r then (Throw (UnexpectedBody (body r)), record m c1)
        else if status r =? 401 then again
             else (Throw (GetDevicesFailed (status r)), record m c1)
    end.
Proof.
  intros Hguard m again. cbn [getDevices].
  rewrite (bind_Return _ _ _ _ _ Hguard).
  unfold bind at 1, this at 1. unfold bind at 1, fetch at 1. cbn.
  fold m. destruct (manifestReply cloud _) as [ | r | r]; [reflexivity | | ];
    cbv beta iota; [rewrite ok_readable | rewrite ok_unreadable];
    (destruct (ok r); cbn; [reflexivity | ]);
    destruct (status r =? 401); reflexivity.
Qed.

(** [getDevices] returns the directory it has just stored. *)
Lemma getDevices_Return cloud fuel c ds c' :
  getDevices cloud fuel c = (Return ds, c') -> devices c' = ds.
Proof.
  revert c. induction fuel as [ | fuel IH]; intros c; cbn [getDevices];
    [discriminate | ].
  unfold bind at 1. destruct (ensureAuthenticated cloud c) as [[[] | e | ] c1];
    try discriminate.
  unfold bind at 1, this at 1. unfold bind at 1, fetch at 1.
  destruct (manifestReply cloud _) as [ | response | response];
    try discriminate;
    (destruct (negb (ok _));
     [ destruct (status _ =? 401); [ | discriminate];
       unfold bind at 1, modify at 1; unfold bind at 1;
       destruct (authenticate cloud _) as [[[] | e | ] c2]; try discriminate;
       apply IH
     | cbn; try discriminate ]).
  now intros [= <- <-].
Qed.

Lemma getDevice_run_known cloud fuel deviceId c :
  devices c <> [] ->
  getDevice cloud fuel deviceId c = (lookupDevice deviceId (devices c), c).
Proof.
  intros H. unfold getDevice, bind, this. cbn.
  destruct (devices c) as [ | d ds] eqn:Hd; [contradiction | ].
  cbn. unfold lift. now rewrite Hd.
Qed.

Lemma getDevice_run_empty cloud fuel deviceId c :
  devices c = [] ->
  getDevice cloud fuel deviceId c
  = match getDevices cloud fuel c with
    | (Return ds, c') => (lookupDevice deviceId ds, c')
    | (Throw e, c') => (Throw e, c')
    | (OutOfFuel, c') => (OutOfFuel, c')
    end.
Proof.
  intros H. unfold getDevice, bind, this. cbn. rewrite H. cbn.
  destruct (getDevices cloud fuel c) as [[ds | e | ] c'] eqn:Hg; try reflexivity.
  cbn. unfold lift. now rewrite (getDevices_Return _ _ _ _ _ Hg).
Qed.

(** A device [getDevice] returns was found in the directory the client
    then holds, which is not empty. *)
Lemma getDevice_Return cloud fuel deviceId c device c' :
  getDevice cloud fuel deviceId c = (Return device, c') ->
  lookupDevice deviceId (devices c') = Return device /\ devices c' <> [].
Proof.
  intros Hrun.
  assert (Hl : lookupDevice deviceId (devices c') = Return device).
  { destruct (devices c) as [ | d0 ds0] eqn:Hd.
    - rewrite (getDevice_run_empty _ _ _ _ Hd) in Hrun.
      destruct (getDevices cloud fuel c) as [[ds | e | ] c1] eqn:Hg;
        try discriminate.
      inversion Hrun; subst. now rewrite (getDevices_Return _ _ _ _ _ Hg).
    - rewrite getDevice_run_known in Hrun by (rewrite Hd; discriminate).
      inversion Hrun; subst. congruence. }
  split; [exact Hl | ]. intros Hnil. rewrite Hnil in Hl.
  unfold lookupDevice in Hl. now destruct (truthy deviceId).
Qed.

(** The device found under an id is found again under its own serial. *)
Lemma lookupDevice_again deviceId ds device :
  lookupDevice deviceId ds = Return device ->
  lookupDevice (Some (serial device)) ds = Return device.
Proof.
  unfold lookupDevice. destruct (truthy deviceId) eqn:Hid.
  - destruct (find _ ds) as [d | ] eqn:Hf; [ | discriminate].
    intros [= ->]. pose proof (find_some _ _ Hf) as [_ Heq].
    apply String.eqb_eq in Heq.
    assert (Ht : truthy (Some (serial device)) = true).
    { rewrite Heq. destruct deviceId as [id | ]; [exact Hid | discriminate]. }
    rewrite Ht. cbn [asString]. rewrite Heq. now rewrite Hf.
  - destruct ds as [ | d ds']; [discriminate | ]. intros [= ->].
    destruct (truthy (Some (serial device))); [ | reflexivity].
    cbn. now rewrite String.eqb_refl.
Qed.

(** The guard of the session leaves the directory alone. *)
Lemma ensureAuthenticated_devices cloud c :
  devices (snd (ensureAuthenticated cloud c)) = devices c.
Proof.
  unfold ensureAuthenticated, bind, this. cbn.
  destruct (negb (truthy (authToken c))); [ | reflexivity].
  unfold authenticate, bind, this, fetch. cbn.
  destruct (authenticateReply cloud _) as [ | r | r]; [reflexivity | | ];
    cbv beta iota; [rewrite ok_readable | rewrite ok_unreadable];
    (destruct (ok r); cbn; [reflexivity | ]);
    destruct (status r =? 401); reflexivity.
Qed.

Lemma find_none_serial id (ds : list DysonDevice) :
  (forall d, In d ds -> serial d <> id) ->
  find (fun d => (serial d =? id)%string) ds = None.
Proof.
  intros H. induction ds as [ | d ds IH]; [reflexivity | ]. cbn.
  destruct (String.eqb_spec (serial d) id) as [Heq | _].
  - exfalso. apply (H d); [now left | exact Heq].
  - apply IH. intros d' Hd'. apply H. now right.
Qed.

(** A status read whose session and device are there, by the reply to its
    request. *)
Lemma getDeviceStatus_cases cloud fuel deviceId c c1 device c2 :
  ensureAuthenticated cloud c = (Return tt, c1) ->
  getDevice cloud fuel deviceId c1 = (Return device, c2) ->
  let read := ReqGetState (apiHost c2) (serial device) (authToken c2) in
  getDeviceStatus cloud fuel deviceId c
  = (match stateReply cloud (read :: sent c2) with
     | Rejected => Throw TransportFailure
     | Answered r =>
         if ok r then Return (toStatus device (body r))
         else Throw (GetStatusFailed (status r))
     | Garbled r =>
         if ok r then Throw (UnexpectedBody (body r))
         else Throw (GetStatusFailed (status r))
     end, record read c2).
Proof.
  intros Hauth Hdev read. unfold getDeviceStatus.
  rewrite (bind_Return _ _ _ _ _ Hauth), (bind_Return _ _ _ _ _ Hdev).
  unfold bind, this, fetch. cbn. fold read.
  destruct (stateReply cloud _) as [ | r | r]; [reflexivity | | ];
    cbv beta iota; [rewrite ok_readable | rewrite ok_unreadable];
    now destruct (ok r).
Qed.

Lemma getDeviceStatus_run cloud fuel deviceId c c1 device c2 response :
  ensureAuthenticated cloud c = (Return tt, c1) ->
  getDevice cloud fuel deviceId c1 = (Return device, c2) ->
  stateReply cloud
    (ReqGetState (apiHost c2) (serial device) (authToken c2) :: sent c2)
  = Answered response ->
  getDeviceStatus cloud fuel deviceId c
  = (if ok response then Return (toStatus device (body response))
     else Throw (GetStatusFailed (status response)),
     record (ReqGetState (apiHost c2) (serial device) (authToken c2)) c2).
Proof.
  intros Hauth Hdev Hreply.
  rewrite (getDeviceStatus_cases _ _ _ _ _ _ _ Hauth Hdev). cbn zeta.
  rewrite Hreply. now destruct (ok response).
Qed.

(** What a status read returns was read from the cloud by the last request
    of the run. *)
Lemma getDeviceStatus_Return cloud fuel deviceId c st c' :
  getDeviceStatus cloud fuel deviceId c = (Return st, c') ->
  exists device response pre,
    sent c' = (ReqGetState (apiHost c') (serial device) (authToken c')
              :: pre ++ sent c)%list
    /\ stateReply cloud (sent c') = Answered response
    /\ ok response = true
    /\ st = toStatus device (body response).
Proof.
  unfold getDeviceStatus, bind.
  destruct (sent_grows _ _ _ c (within_ensureAuthenticated cloud)) as [p1 Hp1].
  destruct (ensureAuthenticated cloud c) as [[[] | e | ] c1]; try discriminate.
  destruct (sent_grows _ _ _ c1 (within_getDevice cloud fuel deviceId)) as [p2 Hp2].
  destruct (getDevice cloud fuel deviceId c1) as [[device | e | ] c2];
    try discriminate.
  unfold this, fetch. cbn in *.
  destruct (stateReply cloud _) as [ | response | response] eqn:Hreply;
    try discriminate; cbv beta iota;
    [rewrite ok_readable | rewrite ok_unreadable];
    (destruct (ok response) eqn:Hok; cbn; [ | discriminate]);
    [ | discriminate].
  intros [= <- <-].
  exists device, response, (p2 ++ p1)%list. cbn.
  repeat split; try assumption. now rewrite Hp2, Hp1, app_assoc.
Qed.

(** A state update whose session and device are there. *)
Lemma setDeviceState_run cloud fuel deviceId state c c1 device c2 :
  ensureAuthenticated cloud c = (Return tt, c1) ->
  getDevice cloud fuel deviceId c1 = (Return device, c2) ->
  let patch := ReqPatchState (apiHost c2) (serial device) (authToken c2) state in
  setDeviceState cloud fuel deviceId state c
  = match patchReply cloud (patch :: sent c2) with
    | Rejected => (Throw TransportFailure, record patch c2)
    | Answered response =>
        if ok response
        then getDeviceStatus cloud fuel (Some (serial device)) (record patch c2)
        else (Throw (StateUpdateFailed (status response)), record patch c2)
    | Garbled response =>
        if ok response
        then getDeviceStatus cloud fuel (Some (serial device)) (record patch c2)
        else (Throw (StateUpdateFailed (status response)), record patch c2)
    end.
Proof.
  intros Hauth Hdev patch. unfold setDeviceState.
  rewrite (bind_Return _ _ _ _ _ Hauth), (bind_Return _ _ _ _ _ Hdev).
  unfold bind, this, fetch. cbn. fold patch.
  destruct (patchReply cloud _) as [ | response | response];
    [reflexivity | | ]; cbv beta iota;
    [rewrite ok_readable | rewrite ok_unreadable];
    now destruct (ok response).
Qed.

(** *** Reading the fan speed *)

(** C10: parseFanSpeed gives a string for every field: "auto" for "AUTO",
    and for any other the string of its integer parse, "NaN" when there is
    no integer to parse (the empty string, a word, a field that is not
    there) and "42" for " 42abc".  A status read whose state request is granted returns a status
    whatever the fnsp field holds, its fan speed being that string. *)
Theorem parseFanSpeed_total (code : option string)
        cloud fuel deviceId c c1 device c2 response :
  (code = Some "AUTO" -> parseFanSpeed code = "auto")
  /\ (code <> Some "AUTO" ->
      parseFanSpeed code = toString (parseInt (asString code)))
  /\ (code <> Some "AUTO" -> leadingInteger (asString code) = None ->
      parseFanSpeed code = "NaN")
  /\ parseFanSpeed (Some "") = "NaN"
  /\ parseFanSpeed (Some "fast") = "NaN"
  /\ parseFanSpeed None = "NaN"
  /\ parseFanSpeed (Some " 42abc") = "42"
  /\ (ensureAuthenticated cloud c = (Return tt, c1) ->
      getDevice cloud fuel deviceId c1 = (Return device, c2) ->
      stateReply cloud
        (ReqGetState (apiHost c2) (serial device) (authToken c2) :: sent c2)
      = Answered response ->
      ok response = true ->
      exists st c',
        getDeviceStatus cloud fuel deviceId c = (Return st, c')
        /\ fanSpeed st = parseFanSpeed (fnsp (body response))).
Proof.
  assert (Hother : code <> Some "AUTO" ->
                   parseFanSpeed code = toString (parseInt (asString code))).
  { intros Hne. unfold parseFanSpeed.
    destruct (strictEq code "AUTO") eqn:Heq; [ | reflexivity].
    apply strictEq_true in Heq. contradiction. }
  repeat split; try reflexivity.
  - now intros ->.
  - exact Hother.
  - intros Hne Hnone. now rewrite (Hother Hne), (parseInt_no_integer _ Hnone).
  - intros Hauth Hdev Hreply Hok.
    rewrite (getDeviceStatus_run _ _ _ _ _ _ _ _ Hauth Hdev Hreply), Hok.
    eexists _, _. split; reflexivity.
Qed.

Lemma parseFanSpeed_total_witness :
  exists st c',
    getDeviceStatus Demo.mute 1 None Demo.signedIn = (Return st, c')
    /\ fanSpeed st = parseFanSpeed None.
Proof.
  apply (proj2 (proj2 (proj2 (proj2 (proj2 (proj2 (proj2
           (parseFanSpeed_total None Demo.mute 1%nat None Demo.signedIn
              Demo.signedIn (toDevice Demo.entry) Demo.signedIn
              {| status := 200; statusText := ""; body := emptyState |}))))))));
    reflexivity.
Defined.

(** *** Updating the state *)

(** A state update whose session and device are there, by the status of
    the reply to its request, whose body is never read. *)
Lemma setDeviceState_answered cloud fuel deviceId state c c1 device c2 code :
  ensureAuthenticated cloud c = (Return tt, c1) ->
  getDevice cloud fuel deviceId c1 = (Return device, c2) ->
  let patch := ReqPatchState (apiHost c2) (serial device) (authToken c2) state in
  answeredWith code (patchReply cloud (patch :: sent c2)) ->
  setDeviceState cloud fuel deviceId state c
  = if (200 <=? code) && (code <=? 299)
    then getDeviceStatus cloud fuel (Some (serial device)) (record patch c2)
    else (Throw (StateUpdateFailed code), record patch c2).
Proof.
  intros Hauth Hdev patch Hcode.
  rewrite (setDeviceState_run _ _ _ _ _ _ _ _ Hauth Hdev). cbn zeta. fold patch.
  destruct (patchReply cloud (patch :: sent c2)) as [ | r | r]; cbn in Hcode;
    [contradiction | | ]; subst code; reflexivity.
Qed.

(** C7: once the session and the device are there and the update is
    answered, whatever the body of the answer, setDeviceState on a success
    status (200 to 299) reads the status again, with getDeviceStatus on the
    device's serial, and returns what that gives.  The read is sent: once
    its guard of the session has passed, the last request of the run is
    the read of the state of the same device, sent after the update, and
    the outcome is decided by the reply to that read alone: the status
    projected from its body on a success status, GetStatusFailed on
    another, what the transport or the reading of the body throws
    otherwise; a status returned was projected from the reply to a state
    read sent after the update.  With a token held the run sends the update
    and the read, nothing else.  On any other status of the update it
    throws StateUpdateFailed with the status, the update being the last
    request sent. *)
Theorem setDeviceState_rereads cloud fuel deviceId state c c1 device c2 code :
  ensureAuthenticated cloud c = (Return tt, c1) ->
  getDevice cloud fuel deviceId c1 = (Return device, c2) ->
  let patch := ReqPatchState (apiHost c2) (serial device) (authToken c2) state in
  answeredWith code (patchReply cloud (patch :: sent c2)) ->
  ((200 <=? code) && (code <=? 299) = true ->
   setDeviceState cloud fuel deviceId state c
   = getDeviceStatus cloud fuel (Some (serial device)) (record patch c2)
   /\ (forall st c',
         setDeviceState cloud fuel deviceId state c = (Return st, c') ->
         exists d read pre,
           sent c' = (ReqGetState (apiHost c') (serial d) (authToken c')
                     :: pre ++ patch :: sent c2)%list
           /\ stateReply cloud (sent c') = Answered read
           /\ ok read = true
           /\ st = toStatus d (body read))
   /\ (forall c3,
         ensureAuthenticated cloud (record patch c2) = (Return tt, c3) ->
         let read := ReqGetState (apiHost c3) (serial device) (authToken c3) in
         setDeviceState cloud fuel deviceId state c
         = (match stateReply cloud (read :: sent c3) with
            | Rejected => Throw TransportFailure
            | Answered r =>
                if ok r then Return (toStatus device (body r))
                else Throw (GetStatusFailed (status r))
            | Garbled r =>
                if ok r then Throw (UnexpectedBody (body r))
                else Throw (GetStatusFailed (status r))
            end, record read c3))
   /\ (truthy (authToken c2) = true ->
       sent (snd (setDeviceState cloud fuel deviceId state c))
       = ReqGetState (apiHost c2) (serial device) (authToken c2)
         :: patch :: sent c2))
  /\ ((200 <=? code) && (code <=? 299) = false ->
      setDeviceState cloud fuel deviceId state c
      = (Throw (StateUpdateFailed code), record patch c2))
  /\ (forall response,
        patchReply cloud (patch :: sent c2) = Answered response ->
        status response = code
        /\ ok response = (200 <=? code) && (code <=? 299)).
Proof.
  intros Hauth Hdev patch Hcode.
  pose proof (setDeviceState_answered cloud fuel deviceId state c c1 device c2
                code Hauth Hdev Hcode) as Hrun.
  fold patch in Hrun.
  split; [ | split]; [intros Hok; rewrite Hok in Hrun
                     | intros Hok; rewrite Hok in Hrun; exact Hrun | ].
  2:{ intros response Hreply. fold patch in Hcode. rewrite Hreply in Hcode.
      cbn in Hcode. subst code. now split. }
  assert (Hagain : forall c3,
             ensureAuthenticated cloud (record patch c2) = (Return tt, c3) ->
             getDevice cloud fuel (Some (serial device)) c3
             = (Return device, c3)).
  { intros c3 Hguard.
    destruct (getDevice_Return _ _ _ _ _ _ Hdev) as [Hl Hds].
    pose proof (ensureAuthenticated_devices cloud (record patch c2)) as Hd.
    rewrite Hguard in Hd. cbn in Hd.
    rewrite getDevice_run_known by (now rewrite Hd).
    now rewrite Hd, (lookupDevice_again _ _ _ Hl). }
  repeat apply conj.
  - exact Hrun.
  - intros st c' Hret. rewrite Hrun in Hret.
    apply getDeviceStatus_Return in Hret.
    destruct Hret as (d & read & pre & Hsent & Hread & Hokr & Hst).
    now exists d, read, pre.
  - intros c3 Hguard read. rewrite Hrun.
    apply (getDeviceStatus_cases _ _ _ _ _ _ _ Hguard (Hagain c3 Hguard)).
  - intros Htoken. rewrite Hrun.
    pose proof (ensureAuthenticated_session cloud (record patch c2) Htoken)
      as Hguard.
    now rewrite (getDeviceStatus_cases _ _ _ _ _ _ _ Hguard (Hagain _ Hguard)).
Qed.

Lemma setDeviceState_rereads_witness :
  setDeviceState Demo.steady 1 None (fanFields "AUTO" "ON") Demo.signedIn
  = getDeviceStatus Demo.steady 1 (Some "A1B-EU-KDA0123A")
      (record (ReqPatchState "appapi.cp.dyson.com" "A1B-EU-KDA0123A"
                 (Some "token") (fanFields "AUTO" "ON")) Demo.signedIn)
  /\ sent (snd (setDeviceState Demo.steady 1 None (fanFields "AUTO" "ON")
                  Demo.signedIn))
     = [ReqGetState "appapi.cp.dyson.com" "A1B-EU-KDA0123A" (Some "token");
        ReqPatchState "appapi.cp.dyson.com" "A1B-EU-KDA0123A" (Some "token")
          (fanFields "AUTO" "ON")]
  /\ fst (setDeviceState Demo.steady 1 None (fanFields "AUTO" "ON")
            Demo.signedIn)
     = Return (toStatus (toDevice Demo.entry) Demo.wire)
  /\ setDeviceState Demo.refusing 1 None (fanFields "AUTO" "ON") Demo.signedIn
     = (Throw (StateUpdateFailed 401),
        record (ReqPatchState "appapi.cp.dyson.com" "A1B-EU-KDA0123A"
                  (Some "token") (fanFields "AUTO" "ON")) Demo.signedIn).
Proof.
  pose proof (proj1 (setDeviceState_rereads Demo.steady 1 None
                       (fanFields "AUTO" "ON") Demo.signedIn Demo.signedIn
                       (toDevice Demo.entry) Demo.signedIn 200
                       eq_refl eq_refl eq_refl) eq_refl)
    as (Hsame & _ & Hread & Hsent).
  repeat apply conj.
  - exact Hsame.
  - exact (Hsent eq_refl).
  - exact (f_equal fst (Hread _ eq_refl)).
  - apply (proj1 (proj2
             (setDeviceState_rereads Demo.refusing 1 None
                (fanFields "AUTO" "ON") Demo.signedIn Demo.signedIn
                (toDevice Demo.entry) Demo.signedIn 401
                eq_refl eq_refl eq_refl))).
    reflexivity.
Defined.

(** *** Resolving a device *)

(** C6 as it is stated fails on the empty string: no device of the
    directory has it for serial, and getDevice returns the first device,
    as it does without an id. *)
Lemma getDevice_empty_id :
  (forall d, In d (devices Demo.signedIn) -> serial d <> "")
  /\ getDevice Demo.steady 1 (Some "") Demo.signedIn
     = (Return (toDevice Demo.entry), Demo.signedIn).
Proof.
  split; [ | reflexivity].
  intros d [<- | [<- | []]]; discriminate.
Qed.

(** C6, amended: getDevice searches the directory it holds, and fetches it
    first when it holds none (what the fetch throws, getDevice throws).
    An id that is not the empty string and is no device's serial throws
    DeviceNotFound with the id; an id that is some device's serial gives the
    first such device.  Without an id the first device is returned, and
    NoDevicesFound thrown when there is none; the empty string counts as no
    id. *)
Theorem getDevice_resolves cloud fuel (deviceId : option string) c :
  (devices c <> [] ->
   getDevice cloud fuel deviceId c = (lookupDevice deviceId (devices c), c))
  /\ (devices c = [] ->
      getDevice cloud fuel deviceId c
      = match getDevices cloud fuel c with
        | (Return ds, c') => (lookupDevice deviceId ds, c')
        | (Throw e, c') => (Throw e, c')
        | (OutOfFuel, c') => (OutOfFuel, c')
        end)
  /\ (forall id ds, id <> "" -> (forall d, In d ds -> serial d <> id) ->
      lookupDevice (Some id) ds = Throw (DeviceNotFound id))
  /\ (forall id ds d, id <> "" ->
      find (fun d => (serial d =? id)%string) ds = Some d ->
      lookupDevice (Some id) ds = Return d)
  /\ (forall d ds, lookupDevice None (d :: ds) = Return d)
  /\ lookupDevice None [] = Throw NoDevicesFound
  /\ (forall ds, lookupDevice (Some "") ds = lookupDevice None ds).
Proof.
  split; [apply getDevice_run_known | ].
  split; [apply getDevice_run_empty | ].
  repeat split.
  - intros id ds Hid Hnone. unfold lookupDevice. cbn.
    apply String.eqb_neq in Hid. rewrite Hid. cbn.
    now rewrite (find_none_serial _ _ Hnone).
  - intros id ds d Hid Hfind. unfold lookupDevice. cbn.
    apply String.eqb_neq in Hid. rewrite Hid. cbn. now rewrite Hfind.
Qed.

Lemma getDevice_resolves_witness :
  getDevice Demo.steady 1 (Some "nowhere") Demo.signedIn
  = (lookupDevice (Some "nowhere") (devices Demo.signedIn), Demo.signedIn)
  /\ lookupDevice (Some "nowhere") (devices Demo.signedIn)
     = Throw (DeviceNotFound "nowhere")
  /\ getDevice Demo.vacant 1 None Demo.session
     = (Throw NoDevicesFound,
        record (ReqManifest "appapi.cp.dyson.com" (Some "token")) Demo.session).
Proof.
  split; [ | split].
  - apply (proj1 (getDevice_resolves Demo.steady 1 (Some "nowhere")
                    Demo.signedIn)).
    discriminate.
  - apply (proj1 (proj2 (proj2 (getDevice_resolves Demo.steady 1 None
                                  Demo.signedIn)))); [discriminate | ].
    intros d [<- | [<- | []]]; discriminate.
  - rewrite (proj1 (proj2 (getDevice_resolves Demo.vacant 1 None Demo.session)));
      reflexivity.
Defined.

(** *** Setting the fan speed *)

(** C2 as it is stated fails on "5x": neither "auto" nor one of "1" to
    "10", it is accepted, and the update sets the speed 5. *)
Lemma setFanSpeed_lenient :
  toUpperCase "5x" <> "AUTO"
  /\ ~ In "5x" ["1"; "2"; "3"; "4"; "5"; "6"; "7"; "8"; "9"; "10"]
  /\ fst (setFanSpeed Demo.steady 1 None "5x" Demo.signedIn)
     <> Throw InvalidFanSpeed
  /\ In (ReqPatchState "appapi.cp.dyson.com" "A1B-EU-KDA0123A" (Some "token")
           (fanFields "0005" "OFF"))
        (sent (snd (setFanSpeed Demo.steady 1 None "5x" Demo.signedIn))).
Proof.
  split; [discriminate | ].
  split; [cbn; intuition discriminate | ].
  split; [vm_compute; discriminate | ].
  vm_compute. right. left. reflexivity.
Qed.

(** C2, amended: setFanSpeed accepts "auto" in any case, the decimal
    strings of 1 to 10, and every other string that parseInt reads as an
    integer from 1 to 10 (white space or a plus sign before it, zeros in
    front, any text after the digits).  A string with no integer to parse
    that is not "auto", and the speeds 0 and 11, throw InvalidFanSpeed, as
    does exactly every string that is not "auto" and whose parse is NaN,
    below 1 or above 10; when it is thrown the client is left as it was,
    no request sent. *)
Theorem setFanSpeed_validation cloud fuel deviceId speed c :
  (toUpperCase speed = "AUTO" ->
   fst (setFanSpeed cloud fuel deviceId speed c) <> Throw InvalidFanSpeed)
  /\ (forall n, 1 <= n <= 10 -> speed = decimal n ->
      fst (setFanSpeed cloud fuel deviceId speed c) <> Throw InvalidFanSpeed)
  /\ (toUpperCase speed <> "AUTO" -> leadingInteger speed = None ->
      setFanSpeed cloud fuel deviceId speed c = (Throw InvalidFanSpeed, c))
  /\ (speed = "0" \/ speed = "11" ->
      setFanSpeed cloud fuel deviceId speed c = (Throw InvalidFanSpeed, c))
  /\ (fst (setFanSpeed cloud fuel deviceId speed c) = Throw InvalidFanSpeed
      <-> toUpperCase speed <> "AUTO"
          /\ (isNaN (parseInt speed) || (parseInt speed <? 1)%float
              || (10 <? parseInt speed)%float) = true)
  /\ (fst (setFanSpeed cloud fuel deviceId speed c) = Throw InvalidFanSpeed ->
      snd (setFanSpeed cloud fuel deviceId speed c) = c).
Proof.
  assert (Hset : forall fields,
             fst (setDeviceState cloud fuel deviceId fields c)
             <> Throw InvalidFanSpeed).
  { intros fields H.
    now apply (proj2 (within_setDeviceState cloud fuel deviceId fields c)) in H. }
  unfold setFanSpeed. repeat split.
  - intros H. rewrite (fanSpeedFields_auto _ H). apply Hset.
  - intros n Hn ->. rewrite (proj1 (fanSpeedFields_decimal n Hn)). apply Hset.
  - intros Hne Hnone. rewrite (fanSpeedFields_number _ Hne).
    now rewrite (parseInt_no_integer _ Hnone).
  - now intros [-> | ->].
  - destruct (String.eqb_spec (toUpperCase speed) "AUTO") as [Heq | Hne];
      [rewrite (fanSpeedFields_auto _ Heq) in H; now apply Hset in H | exact Hne].
  - destruct (String.eqb_spec (toUpperCase speed) "AUTO") as [Heq | Hne].
    + rewrite (fanSpeedFields_auto _ Heq) in H. now apply Hset in H.
    + rewrite (fanSpeedFields_number _ Hne) in H. cbn zeta in H.
      destruct (_ || _); [reflexivity | now apply Hset in H].
  - intros [Hne Hbad]. rewrite (fanSpeedFields_number _ Hne). cbn zeta.
    now rewrite Hbad.
  - destruct (fanSpeedFields speed) as [e | fields] eqn:Hf; [reflexivity | ].
    intros H. now apply Hset in H.
Qed.

Lemma setFanSpeed_validation_witness :
  setFanSpeed Demo.steady 1 None "fast" Demo.signedIn
  = (Throw InvalidFanSpeed, Demo.signedIn)
  /\ fst (setFanSpeed Demo.steady 1 None "Auto" Demo.signedIn)
     <> Throw InvalidFanSpeed.
Proof.
  split.
  - apply (proj1 (proj2 (proj2
             (setFanSpeed_validation Demo.steady 1 None "fast" Demo.signedIn)))).
    + discriminate.
    + reflexivity.
  - apply (proj1 (setFanSpeed_validation Demo.steady 1 None "Auto" Demo.signedIn)).
    reflexivity.
Defined.



(** *** Unauthorized responses *)

(** C1 as it is stated fails: a state read and a state update answered 401
    throw at once, with no authentication and no second request; and when
    the manifest is answered 401 twice in a row, the second 401 is followed
    by another authentication and a third request, whose devices are
    returned. *)
Lemma reauthentication_not_once :
  getDeviceStatus Demo.refusing 1 None Demo.signedIn
  = (Throw (GetStatusFailed 401),
     record (ReqGetState "appapi.cp.dyson.com" "A1B-EU-KDA0123A" (Some "token"))
       Demo.signedIn)
  /\ setDeviceState Demo.refusing 1 None (fanFields "AUTO" "ON") Demo.signedIn
     = (Throw (StateUpdateFailed 401),
        record (ReqPatchState "appapi.cp.dyson.com" "A1B-EU-KDA0123A"
                  (Some "token") (fanFields "AUTO" "ON")) Demo.signedIn)
  /\ fst (getDevices (Demo.expiring 2) 3 Demo.session)
     = Return (map toDevice [Demo.entry; Demo.second])
  /\ sent (snd (getDevices (Demo.expiring 2) 3 Demo.session))
     = [ReqManifest "appapi.cp.dyson.com" (Some "token");
        ReqAuthenticate "appapi.cp.dyson.com" "user@example.com" "secret";
        ReqManifest "appapi.cp.dyson.com" (Some "token");
        ReqAuthenticate "appapi.cp.dyson.com" "user@example.com" "secret";
        ReqManifest "appapi.cp.dyson.com" (Some "token")].
Proof.
  repeat split; vm_compute; reflexivity.
Qed.

(** C1, amended: when the manifest request of getDevices is answered 401,
    whether the client held a session or has just authenticated, the
    session is cleared, the client authenticates again and calls getDevices
    again, which treats a further 401 in the same way.  An authentication
    that fails there ends the call with its error, the client left without
    a token, the directory as it was.  One that is granted a token is
    followed by the manifest request again, under the new token; when this
    one is answered with another status than 401 it is the last, one
    authentication and one repeated request in all, and its outcome is the
    outcome of getDevices. *)
Theorem reauthentication_on_401 cloud fuel c c1 :
  ensureAuthenticated cloud c = (Return tt, c1) ->
  let m1 := ReqManifest (apiHost c1) (authToken c1) in
  let a := ReqAuthenticate (apiHost c1) (email c1) (password c1) in
  answeredWith 401 (manifestReply cloud (m1 :: sent c1)) ->
  getDevices cloud (S (S fuel)) c
  = bind (authenticate cloud) (fun _ => getDevices cloud (S fuel))
      (withToken None (record m1 c1))
  /\ (forall e c2,
        authenticate cloud (withToken None (record m1 c1)) = (Throw e, c2) ->
        getDevices cloud (S (S fuel)) c = (Throw e, c2)
        /\ authToken c2 = None
        /\ sent c2 = a :: m1 :: sent c1
        /\ devices c2 = devices c1)
  /\ (forall ra r2,
        let m2 := ReqManifest (apiHost c1) (body ra) in
        authenticateReply cloud (a :: m1 :: sent c1) = Answered ra ->
        ok ra = true ->
        truthy (body ra) = true ->
        manifestReply cloud (m2 :: a :: m1 :: sent c1) = Answered r2 ->
        status r2 <> 401 ->
        exists c',
          getDevices cloud (S (S fuel)) c
          = (if ok r2 then Return (map toDevice (body r2))
             else Throw (GetDevicesFailed (status r2)), c')
          /\ sent c' = m2 :: a :: m1 :: sent c1
          /\ authToken c' = body ra).
Proof.
  intros Hguard m1 a H1.
  assert (Hstep : getDevices cloud (S (S fuel)) c
                  = bind (authenticate cloud)
                      (fun _ => getDevices cloud (S fuel))
                      (withToken None (record m1 c1))).
  { rewrite (getDevices_cases _ _ _ _ Hguard). cbn zeta. fold m1.
    destruct (manifestReply cloud (m1 :: sent c1)) as [ | r | r];
      cbn in H1; [contradiction | | ];
      now rewrite (ok_401 _ H1), H1. }
  split; [exact Hstep | split].
  - intros e c2 Hfail. rewrite Hstep, (bind_Throw _ _ _ _ _ Hfail).
    apply authenticate_Throw in Hfail. subst c2. now repeat split.
  - intros ra r2 m2 Ha Hoka Htoken H2 S2. rewrite Hstep.
    erewrite (bind_Return (authenticate cloud));
      [ | apply (authenticate_run cloud _ ra); [exact Ha | exact Hoka]].
    cbn beta.
    match goal with
    | |- context [getDevices cloud (S fuel) ?x] =>
        rewrite (getDevices_step cloud fuel x r2 Htoken H2)
    end.
    apply Z.eqb_neq in S2. rewrite S2.
    destruct (ok r2); eexists; repeat split.
Qed.

Lemma reauthentication_on_401_witness :
  exists c',
    getDevices (Demo.expiring 1) 2 Demo.fresh
    = (Return (map toDevice [Demo.entry; Demo.second]), c')
    /\ sent c'
       = [ReqManifest "appapi.cp.dyson.com" (Some "token");
          ReqAuthenticate "appapi.cp.dyson.com" "user@example.com" "secret";
          ReqManifest "appapi.cp.dyson.com" (Some "token");
          ReqAuthenticate "appapi.cp.dyson.com" "user@example.com" "secret"]
    /\ authToken c' = Some "token".
Proof.
  apply (proj2 (proj2
           (reauthentication_on_401 (Demo.expiring 1) 0%nat Demo.fresh
              (withToken (Some "token")
                 (record (ReqAuthenticate "appapi.cp.dyson.com"
                            "user@example.com" "secret") Demo.fresh))
              eq_refl eq_refl))
           {| status := 200; statusText := ""; body := Some "token" |}
           {| status := 200; statusText := "";
              body := [Demo.entry; Demo.second] |});
    first [reflexivity | discriminate].
Defined.

(** The guard of the session returns when authentications are granted, an
    authentication sent or none. *)
Lemma ensureAuthenticated_granted cloud c :
  (forall history,
     exists r, authenticateReply cloud history = Answered r /\ ok r = true) ->
  exists c1,
    ensureAuthenticated cloud c = (Return tt, c1)
    /\ (sent c1 = sent c
        \/ sent c1
           = ReqAuthenticate (apiHost c) (email c) (password c) :: sent c).
Proof.
  intros Hgrant. unfold ensureAuthenticated, bind, this. cbn.
  destruct (negb (truthy (authToken c))).
  - destruct (Hgrant (ReqAuthenticate (apiHost c) (email c) (password c)
                      :: sent c)) as (r & Hr & Hok).
    rewrite (authenticate_run cloud c r Hr Hok). eexists. split; [reflexivity | ].
    now right.
  - exists c. split; [reflexivity | now left].
Qed.

(** X1: against a cloud that answers every manifest request with 401 and
    grants every authentication, no call of [getDevices] ends, from
    whatever client: whatever the fuel the run is cut off, no error thrown,
    having sent one manifest request per call and authenticated at least
    once per call. *)
Theorem getDevices_unbounded cloud fuel c :
  (forall history, answeredWith 401 (manifestReply cloud history)) ->
  (forall history,
     exists r, authenticateReply cloud history = Answered r /\ ok r = true) ->
  exists c',
    getDevices cloud fuel c = (OutOfFuel, c')
    /\ List.length (filter Demo.isManifest (sent c'))
       = (fuel + List.length (filter Demo.isManifest (sent c)))%nat
    /\ (fuel + List.length (filter Demo.isAuthenticate (sent c))
        <= List.length (filter Demo.isAuthenticate (sent c')))%nat.
Proof.
  intros H401 Hgrant. revert c. induction fuel as [ | fuel IH]; intros c.
  - exists c. repeat split. apply Nat.le_refl.
  - destruct (ensureAuthenticated_granted cloud c Hgrant) as (c1 & Hguard & Hs1).
    rewrite (getDevices_cases _ _ _ _ Hguard). cbn zeta.
    set (m := ReqManifest (apiHost c1) (authToken c1)).
    set (c2 := withToken None (record m c1)).
    destruct (Hgrant (ReqAuthenticate (apiHost c2) (email c2) (password c2)
                      :: sent c2)) as (r & Hr & Hok).
    assert (Hagain :
              bind (authenticate cloud) (fun _ => getDevices cloud fuel) c2
              = getDevices cloud fuel
                  (withToken (body r)
                     (record (ReqAuthenticate (apiHost c2) (email c2)
                                (password c2)) c2))).
    { now rewrite (bind_Return _ _ _ _ _ (authenticate_run cloud c2 r Hr Hok)). }
    destruct (IH (withToken (body r)
                    (record (ReqAuthenticate (apiHost c2) (email c2)
                               (password c2)) c2)))
      as (c' & Hrun & Hm & Ha).
    exists c'.
    assert (Hcall : getDevices cloud fuel
                      (withToken (body r)
                         (record (ReqAuthenticate (apiHost c2) (email c2)
                                    (password c2)) c2))
                    = (OutOfFuel, c')) by exact Hrun.
    split; [ | split].
    + pose proof (H401 (m :: sent c1)) as Hm1.
      destruct (manifestReply cloud (m :: sent c1)) as [ | r1 | r1];
        cbn in Hm1; [contradiction | | ];
        now rewrite (ok_401 _ Hm1), Hm1, Hagain.
    + rewrite Hm. cbn.
      destruct Hs1 as [-> | ->]; cbn; lia.
    + etransitivity; [ | exact Ha]. cbn.
      destruct Hs1 as [-> | ->]; cbn; lia.
Qed.

Lemma getDevices_unbounded_witness :
  exists c',
    getDevices Demo.revoked 4 Demo.fresh = (OutOfFuel, c')
    /\ List.length (filter Demo.isManifest (sent c'))
       = (4 + List.length (filter Demo.isManifest (sent Demo.fresh)))%nat
    /\ (4 + List.length (filter Demo.isAuthenticate (sent Demo.fresh))
        <= List.length (filter Demo.isAuthenticate (sent c')))%nat.
Proof.
  apply (getDevices_unbounded Demo.revoked 4 Demo.fresh).
  - intros history. reflexivity.
  - intros history. eexists. split; reflexivity.
Defined.

(** * The methods and the tool server as wholes *)

(** ** Specifications of runs *)

Section Logic.

Variable R : Request -> Prop.

Lemma spec_weaken {A} (P P' : Client -> Prop) (m : M A) (E E' : Client -> Prop)
      (Q Q' : A -> Client -> Prop) :
  spec R P' m E' Q' ->
  (forall c, P c -> P' c) ->
  (forall c, E' c -> E c) ->
  (forall a c, Q' a c -> Q a c) ->
  spec R P m E Q.
Proof.
  intros H HP HE HQ c Hc. destruct (H c (HP c Hc)) as [Hs Ho].
  split; [exact Hs | ]. destruct (fst (m c)); auto.
Qed.

Lemma spec_post {A} (P : Client -> Prop) (m : M A) (E E' : Client -> Prop)
      (Q Q' : A -> Client -> Prop) :
  spec R P m E' Q' ->
  (forall c, E' c -> E c) ->
  (forall a c, Q' a c -> Q a c) ->
  spec R P m E Q.
Proof. intros H HE HQ. eapply spec_weaken; eauto. Qed.

Lemma spec_bind {A B} (P : Client -> Prop) (m : M A) (k : A -> M B)
      (E : Client -> Prop) (Q1 : A -> Client -> Prop) (Q : B -> Client -> Prop) :
  spec R P m E Q1 ->
  (forall a, spec R (Q1 a) (k a) E Q) ->
  spec R P (bind m k) E Q.
Proof.
  intros Hm Hk c Hc. unfold bind.
  destruct (Hm c Hc) as [[pre [Hs Hp]] Ho].
  destruct (m c) as [[a | e | ] c1]; cbn in *.
  - destruct (Hk a c1 Ho) as [[pre' [Hs' Hp']] Ho']. split; [ | exact Ho'].
    exists (pre' ++ pre)%list. rewrite Hs', Hs, app_assoc.
    split; [reflexivity | ]. apply Forall_app; now split.
  - split; [now exists pre | exact Ho].
  - split; [now exists pre | exact Ho].
Qed.

Lemma spec_ret {A} (P : Client -> Prop) (a : A) E :
  spec R P (ret a) E (fun a' c => a' = a /\ P c).
Proof. intros c Hc. split; [exists []; now split | now split]. Qed.

Lemma spec_this (P : Client -> Prop) E :
  spec R P this E (fun c0 c => c0 = c /\ P c).
Proof. intros c Hc. split; [exists []; now split | now split]. Qed.

Lemma spec_throw {A} (P : Client -> Prop) e (Q : A -> Client -> Prop) :
  spec R P (throw e) P Q.
Proof. intros c Hc. split; [exists []; now split | exact Hc]. Qed.

Lemma spec_lift {A} (P : Client -> Prop) (o : Outcome A) :
  spec R P (lift o) P (fun a c => o = Return a /\ P c).
Proof.
  intros c Hc. split; [exists []; now split | ].
  cbn. destruct o; auto.
Qed.

Lemma spec_modify (P : Client -> Prop) f E :
  (forall c, sent (f c) = sent c) ->
  spec R P (modify f) E (fun _ c' => exists c, P c /\ c' = f c).
Proof.
  intros Hf c Hc. split; [exists []; split; [apply Hf | constructor] | ].
  now exists c.
Qed.

Lemma spec_fetch {A} (P : Client -> Prop) req (reply : list Request -> Reply A) :
  (forall c, P c -> R req) ->
  spec R P (fetch req reply)
    (fun c' => exists c, P c /\ c' = record req c)
    (fun r c' =>
       exists c, P c /\ c' = record req c
                 /\ forall data, body r = inr data ->
                      reply (sent c')
                      = Answered {| status := status r;
                                    statusText := statusText r;
                                    body := data |}).
Proof.
  intros Hr c Hc. unfold fetch.
  destruct (reply (sent (record req c))) as [ | r | r] eqn:Hreply; cbn;
    (split; [exists [req]; split; [reflexivity | ]; constructor; eauto | ]).
  - now exists c.
  - exists c. repeat split; [exact Hc | ].
    intros data [= <-]. cbn in Hreply. rewrite Hreply. now destruct r.
  - exists c. repeat split; [exact Hc | discriminate].
Qed.

Lemma spec_json {A} (P : Client -> Prop) (response : Response (string + A)) :
  spec R P (json response) P (fun data c => body response = inr data /\ P c).
Proof.
  intros c Hc. unfold json.
  destruct (body response); cbn; (split; [exists []; now split | ]); auto.
Qed.

End Logic.

Lemma spec_requests {A} (R R' : Request -> Prop) (P : Client -> Prop) (m : M A)
      (E : Client -> Prop) (Q : A -> Client -> Prop) :
  (forall req, R req -> R' req) -> spec R P m E Q -> spec R' P m E Q.
Proof.
  intros HR H c Hc. destruct (H c Hc) as [[pre [Hs Hp]] Ho].
  split; [ | exact Ho]. exists pre. split; [exact Hs | ].
  eapply Forall_impl; eauto.
Qed.

(** ** What the methods keep *)

Ltac unpack :=
  intros; cbv beta in *;
  repeat (match goal with
          | H : exists _, _ |- _ => destruct H
          | H : _ /\ _ |- _ => destruct H
          end; cbv beta in *);
  subst.

(** One step of a specification: the rule of the first statement, its
    side conditions left to [tac]. *)
Ltac step tac :=
  lazymatch goal with
  | |- spec _ _ (bind _ _) _ _ => eapply spec_bind; [ | intro ]
  | |- spec _ _ this _ _ => apply spec_this
  | |- spec _ _ (ret _) _ _ =>
      eapply spec_post; [apply spec_ret | intros ? H; exact H | tac]
  | |- spec _ _ (throw _) _ _ => eapply spec_post; [apply spec_throw | tac | tac]
  | |- spec _ _ (lift _) _ _ => eapply spec_post; [apply spec_lift | tac | tac]
  | |- spec _ _ (modify _) _ _ =>
      eapply spec_post;
        [apply spec_modify; reflexivity | intros ? H; exact H | tac]
  | |- spec _ _ (fetch _ _) _ _ =>
      eapply spec_post; [apply spec_fetch; tac | tac | tac]
  | |- spec _ _ (json _) _ _ => eapply spec_post; [apply spec_json | tac | tac]
  | |- spec _ _ (if ?b then _ else _) _ _ => destruct b eqn:?
  end.

(** A method called, by a specification proved for it. *)
Ltac call lemma tac :=
  eapply spec_weaken; [apply lemma | tac | intros ? H; exact H | tac].

Section Frame.

Variable cloud : Cloud.

(** [f] is anything read off the client that neither the requests sent nor
    the token change, and from which the configuration can be read. *)
Variables (T : Type) (f : Client -> T) (c0 : Client).
Hypothesis f_record : forall req c, f (record req c) = f c.
Hypothesis f_token : forall t c, f (withToken t c) = f c.
Hypothesis f_config : forall c c', f c = f c' -> config c = config c'.

Local Ltac framed :=
  first
    [ now (intros ? ? H; exact H)
    | now (unpack; unfold kept in *; rewrite ?f_record, ?f_token; auto)
    | now (unpack; unfold kept in *;
           match goal with
           | H : f ?c = f c0 |- _ =>
               let Hc := fresh in
               pose proof (f_config _ _ H) as Hc;
               unfold addressed, config in *; cbn in *; congruence
           end) ].

Lemma authenticate_keeps :
  spec (addressed (config c0)) (kept f c0)
    (authenticate cloud) (kept f c0)
    (fun _ => kept f c0).
Proof. unfold authenticate. repeat step framed. Qed.

Lemma ensureAuthenticated_keeps :
  spec (addressed (config c0)) (kept f c0)
    (ensureAuthenticated cloud) (kept f c0)
    (fun _ => kept f c0).
Proof.
  unfold ensureAuthenticated. step framed; [step framed | ].
  step framed; [call authenticate_keeps framed | step framed].
Qed.

(** Until it returns, [getDevices] changes nothing but the token. *)
Lemma getDevices_unless fuel :
  spec (addressed (config c0)) (kept f c0)
    (getDevices cloud fuel) (kept f c0)
    (fun _ _ => True).
Proof.
  induction fuel as [ | fuel IH]; cbn [getDevices].
  - intros c Hc. split; [exists []; now split | exact Hc].
  - step framed; [call ensureAuthenticated_keeps framed | ].
    step framed; [step framed | ].
    step framed; [step framed | ].
    step framed; [step framed | ].
    + step framed; [step framed | ].
      step framed; [call authenticate_keeps framed | call IH framed].
    + step framed.
    + step framed; [step framed | ].
      intros c Hc. split; [exists []; now split | exact I].
Qed.

Hypothesis f_devices : forall ds c, f (withDevices ds c) = f c.

Local Ltac framed' :=
  first [ framed | now (unpack; unfold kept in *; rewrite ?f_devices; framed) ].

Lemma getDevices_keeps fuel :
  spec (addressed (config c0)) (kept f c0)
    (getDevices cloud fuel) (kept f c0)
    (fun _ => kept f c0).
Proof.
  induction fuel as [ | fuel IH]; cbn [getDevices].
  - intros c Hc. split; [exists []; now split | exact Hc].
  - step framed; [call ensureAuthenticated_keeps framed | ].
    step framed; [step framed | ].
    step framed; [step framed | ].
    step framed; [step framed | ].
    + step framed; [step framed | ].
      step framed; [call authenticate_keeps framed | call IH framed].
    + step framed.
    + repeat (step framed'; [step framed' | ]). step framed'.
Qed.

Lemma getDevice_keeps fuel deviceId :
  spec (addressed (config c0)) (kept f c0)
    (getDevice cloud fuel deviceId) (kept f c0)
    (fun _ => kept f c0).
Proof.
  unfold getDevice. step framed; [step framed | ].
  eapply spec_bind with (Q1 := fun _ => kept f c0); [ | intros _].
  - step framed.
    + step framed; [call getDevices_keeps framed | step framed].
    + step framed.
  - step framed; [step framed | step framed].
Qed.

Lemma getDeviceStatus_keeps fuel deviceId :
  spec (addressed (config c0)) (kept f c0)
    (getDeviceStatus cloud fuel deviceId) (kept f c0)
    (fun _ => kept f c0).
Proof.
  unfold getDeviceStatus.
  step framed; [call ensureAuthenticated_keeps framed | ].
  step framed; [call getDevice_keeps framed | ].
  step framed; [step framed | ].
  step framed; [step framed | ].
  step framed; repeat step framed.
Qed.

Lemma setDeviceState_keeps fuel deviceId state :
  spec (addressed (config c0)) (kept f c0)
    (setDeviceState cloud fuel deviceId state) (kept f c0)
    (fun _ => kept f c0).
Proof.
  unfold setDeviceState.
  step framed; [call ensureAuthenticated_keeps framed | ].
  step framed; [call getDevice_keeps framed | ].
  step framed; [step framed | ].
  step framed; [step framed | ].
  step framed; [step framed | call getDeviceStatus_keeps framed].
Qed.

Lemma getAirQuality_keeps fuel deviceId :
  spec (addressed (config c0)) (kept f c0)
    (getAirQuality cloud fuel deviceId) (kept f c0)
    (fun _ => kept f c0).
Proof.
  unfold getAirQuality.
  step framed; [call getDeviceStatus_keeps framed | ].
  destruct (airQuality a); step framed.
Qed.

End Frame.

(** ** The session token *)

Section Session.

Variable cloud : Cloud.
Hypothesis granted : grantsTokens cloud.

Local Ltac session :=
  first
    [ now (intros ? ? H; exact H)
    | now (unpack; unfold signed, anyhow in *; cbn in *; auto)
    | now (unpack; unfold signed in *; cbn;
           match goal with
           | H : forall data, body ?r = inr data ->
                              authenticateReply cloud _ = Answered _,
             B : body ?r = inr _,
             N : negb (ok ?r) = false |- _ =>
               apply negb_false_iff in N; exact (granted _ _ (H _ B) N)
           | N : negb (truthy ?t) = false |- truthy ?t = true =>
               now apply negb_false_iff in N
           end) ].

Lemma authenticate_session :
  spec tokened anyhow (authenticate cloud) anyhow (fun _ => signed).
Proof. unfold authenticate. repeat step session. Qed.

Lemma ensureAuthenticated_signed :
  spec tokened anyhow (ensureAuthenticated cloud) anyhow (fun _ => signed).
Proof.
  unfold ensureAuthenticated. step session; [step session | ].
  step session; [call authenticate_session session | step session].
Qed.

Lemma getDevices_session fuel :
  spec tokened anyhow (getDevices cloud fuel) anyhow (fun _ => signed).
Proof.
  induction fuel as [ | fuel IH]; cbn [getDevices].
  - intros c Hc. split; [exists []; now split | exact I].
  - step session; [call ensureAuthenticated_signed session | ].
    step session; [step session | ].
    step session; [step session | ].
    step session; [step session | ].
    + step session; [step session | ].
      step session; [call authenticate_session session | call IH session].
    + step session.
    + repeat (step session; [step session | ]). step session.
Qed.

Lemma getDevice_session fuel deviceId :
  spec tokened signed (getDevice cloud fuel deviceId) anyhow (fun _ => signed).
Proof.
  unfold getDevice. step session; [step session | ].
  eapply spec_bind with (Q1 := fun _ => signed); [ | intros _].
  - step session.
    + step session; [call getDevices_session session | step session].
    + step session.
  - step session; [step session | step session].
Qed.

Lemma getDeviceStatus_session fuel deviceId :
  spec tokened anyhow (getDeviceStatus cloud fuel deviceId) anyhow
    (fun _ => anyhow).
Proof.
  unfold getDeviceStatus.
  step session; [call ensureAuthenticated_signed session | ].
  step session; [call getDevice_session session | ].
  step session; [step session | ].
  step session; [step session | ].
  step session; repeat step session.
Qed.

Lemma setDeviceState_session fuel deviceId state :
  spec tokened anyhow (setDeviceState cloud fuel deviceId state) anyhow
    (fun _ => anyhow).
Proof.
  unfold setDeviceState.
  step session; [call ensureAuthenticated_signed session | ].
  step session; [call getDevice_session session | ].
  step session; [step session | ].
  step session; [step session | ].
  step session; [step session | call getDeviceStatus_session session].
Qed.

Lemma getAirQuality_session fuel deviceId :
  spec tokened anyhow (getAirQuality cloud fuel deviceId) anyhow
    (fun _ => anyhow).
Proof.
  unfold getAirQuality.
  step session; [call getDeviceStatus_session session | ].
  destruct (airQuality a); step session.
Qed.

End Session.

(** ** The requests and the errors of each method *)

Section Footprints.

Variable cloud : Cloud.

Local Ltac foot :=
  first
    [ apply within_bind; [ | intros ? ]
    | apply within_ret | apply within_this
    | apply within_throw; exact I
    | apply within_modify; reflexivity
    | apply within_fetch; exact I
    | apply within_json; intros ?; exact I ].

Local Ltac wider lemma :=
  eapply within_weaken; [ | | apply lemma];
  [ let r := fresh in intros r; destruct r; cbn; tauto
  | let e := fresh in intros e; destruct e; cbn; tauto ].

Lemma authenticate_footprint : within authRequest authError (authenticate cloud).
Proof.
  unfold authenticate. repeat foot.
  destruct (negb _); [destruct (_ =? _) | ]; repeat foot.
Qed.

Lemma ensureAuthenticated_footprint :
  within authRequest authError (ensureAuthenticated cloud).
Proof.
  unfold ensureAuthenticated. foot; [foot | ].
  destruct (negb _); [apply authenticate_footprint | foot].
Qed.

Lemma getDevices_footprint fuel :
  within directoryRequest directoryError (getDevices cloud fuel).
Proof.
  induction fuel as [ | fuel IH]; cbn [getDevices].
  - intros c; split; [exists []; now split | discriminate].
  - foot; [wider ensureAuthenticated_footprint | ].
    do 2 (foot; [foot | ]).
    destruct (negb _); [destruct (_ =? _) | ].
    + foot; [foot | ]. foot; [wider authenticate_footprint | exact IH].
    + foot.
    + repeat foot.
Qed.

Lemma getDevice_footprint fuel deviceId :
  within directoryRequest lookupError (getDevice cloud fuel deviceId).
Proof.
  unfold getDevice. foot; [foot | ]. foot.
  - destruct (_ =? _)%nat; [ | foot].
    foot; [wider getDevices_footprint | foot].
  - foot; [foot | ]. apply within_lift. unfold lookupDevice.
    intros e. destruct (Pure.truthy _).
    + destruct (find _ _); [discriminate | now intros [= <-]].
    + destruct (devices _); [now intros [= <-] | discriminate].
Qed.

Lemma getDeviceStatus_footprint fuel deviceId :
  within notPatch statusError (getDeviceStatus cloud fuel deviceId).
Proof.
  unfold getDeviceStatus. foot; [wider ensureAuthenticated_footprint | ].
  foot; [wider getDevice_footprint | ]. do 2 (foot; [foot | ]).
  destruct (negb _); repeat foot.
Qed.

Lemma setDeviceState_footprint fuel deviceId state :
  within (carries state) updateError (setDeviceState cloud fuel deviceId state).
Proof.
  unfold setDeviceState. foot; [wider ensureAuthenticated_footprint | ].
  foot; [wider getDevice_footprint | ]. foot; [foot | ].
  foot; [apply within_fetch; [reflexivity | exact I] | ].
  destruct (negb _); [foot | wider getDeviceStatus_footprint].
Qed.

Lemma getAirQuality_footprint fuel deviceId :
  within notPatch
    (fun e => e = AirQualityUnavailable \/ statusError e)
    (getAirQuality cloud fuel deviceId).
Proof.
  unfold getAirQuality. apply within_bind; [ | intros st].
  - eapply within_weaken; [ | | apply getDeviceStatus_footprint]; auto.
  - destruct (airQuality st); [apply within_ret | apply within_throw; now left].
Qed.

End Footprints.

(** ** The methods *)

(** *** The configuration *)

Lemma keepsConfig_intro {A} (m : M A) :
  (forall c0,
     spec (addressed (config c0)) (fun c => config c = config c0) m
       (fun c => config c = config c0) (fun _ c => config c = config c0)) ->
  keepsConfig m.
Proof.
  intros H c. destruct (H c c eq_refl) as [Hs Ho]. split; [ | exact Hs].
  destruct (fst (m c)); exact Ho.
Qed.

Ltac configured lemma :=
  apply keepsConfig_intro; intros c0; apply lemma; auto.

(** X3: no method changes the email, the password or the host of the
    client, and every request of a method goes to that host, an
    authentication with those credentials. *)
Theorem methods_keep_config cloud fuel deviceId :
  keepsConfig (authenticate cloud)
  /\ keepsConfig (getDevices cloud fuel)
  /\ keepsConfig (getDevice cloud fuel deviceId)
  /\ keepsConfig (getDeviceStatus cloud fuel deviceId)
  /\ keepsConfig (getAirQuality cloud fuel deviceId)
  /\ (forall state, keepsConfig (setDeviceState cloud fuel deviceId state))
  /\ (forall speed, keepsConfig (setFanSpeed cloud fuel deviceId speed))
  /\ (forall enabled, keepsConfig (setOscillation cloud fuel deviceId enabled))
  /\ (forall enabled, keepsConfig (setNightMode cloud fuel deviceId enabled)).
Proof.
  repeat apply conj.
  - configured authenticate_keeps.
  - configured getDevices_keeps.
  - configured getDevice_keeps.
  - configured getDeviceStatus_keeps.
  - configured getAirQuality_keeps.
  - intros state. configured setDeviceState_keeps.
  - intros speed. unfold setFanSpeed. destruct (fanSpeedFields speed) as [e | fields].
    + intros c. split; [reflexivity | exists []; now split].
    + configured setDeviceState_keeps.
  - intros enabled. configured setDeviceState_keeps.
  - intros enabled. configured setDeviceState_keeps.
Qed.

(** *** The session token *)

Lemma sendsTokened_intro {A} (m : M A) (E : Client -> Prop)
      (Q : A -> Client -> Prop) :
  spec tokened (fun _ => True) m E Q -> sendsTokened m.
Proof. intros H c. exact (proj1 (H c I)). Qed.

Lemma getDevice_tokened cloud fuel deviceId :
  grantsTokens cloud -> sendsTokened (getDevice cloud fuel deviceId).
Proof.
  intros Hg c. unfold getDevice, bind, this. cbn.
  destruct (Nat.eqb_spec (List.length (devices c)) 0).
  - destruct (getDevices_session cloud Hg fuel c I) as [[pre [Hs Hp]] _].
    destruct (getDevices cloud fuel c) as [[ds | err | ] c']; cbn in *;
      now exists pre.
  - exists []. now split.
Qed.

(** X4: against a cloud that grants no empty token, every manifest, state
    and update request of every method carries a token that is not empty:
    no method sends one before the client has a session. *)
Theorem requests_carry_token cloud fuel deviceId :
  grantsTokens cloud ->
  sendsTokened (getDevices cloud fuel)
  /\ sendsTokened (getDevice cloud fuel deviceId)
  /\ sendsTokened (getDeviceStatus cloud fuel deviceId)
  /\ sendsTokened (getAirQuality cloud fuel deviceId)
  /\ (forall state, sendsTokened (setDeviceState cloud fuel deviceId state))
  /\ (forall speed, sendsTokened (setFanSpeed cloud fuel deviceId speed))
  /\ (forall enabled, sendsTokened (setOscillation cloud fuel deviceId enabled))
  /\ (forall enabled, sendsTokened (setNightMode cloud fuel deviceId enabled)).
Proof.
  intros Hg. repeat apply conj.
  - eapply sendsTokened_intro, getDevices_session, Hg.
  - now apply getDevice_tokened.
  - eapply sendsTokened_intro, getDeviceStatus_session, Hg.
  - eapply sendsTokened_intro, getAirQuality_session, Hg.
  - intros state. eapply sendsTokened_intro, setDeviceState_session, Hg.
  - intros speed. unfold setFanSpeed. destruct (fanSpeedFields speed) as [e | fields].
    + intros c. exists []. now split.
    + eapply sendsTokened_intro, setDeviceState_session, Hg.
  - intros enabled. eapply sendsTokened_intro, setDeviceState_session, Hg.
  - intros enabled. eapply sendsTokened_intro, setDeviceState_session, Hg.
Qed.

Lemma steady_grantsTokens : grantsTokens Demo.steady.
Proof. intros history response [= <-] _. reflexivity. Qed.

Lemma requests_carry_token_witness :
  exists pre,
    sent (snd (setFanSpeed Demo.steady 1 None "auto" Demo.fresh))
    = (pre ++ sent Demo.fresh)%list
    /\ Forall tokened pre.
Proof.
  exact (proj1 (proj2 (proj2 (proj2 (proj2 (proj2
           (requests_carry_token Demo.steady 1 None steady_grantsTokens))))))
           "auto" Demo.fresh).
Defined.

(** *** The directory *)

Lemma getDevices_failure cloud fuel c :
  match fst (getDevices cloud fuel c) with
  | Return _ => True
  | _ => devices (snd (getDevices cloud fuel c)) = devices c
  end.
Proof.
  pose proof (getDevices_unless cloud _ (fun c => (config c, devices c)) c
                (fun _ _ => eq_refl) (fun _ _ => eq_refl)) as H.
  destruct (H ltac:(intros ? ? Hf; exact (f_equal fst Hf)) fuel c eq_refl)
    as [_ Ho].
  destruct (fst (getDevices cloud fuel c)); [exact I | | ];
    now inversion Ho.
Qed.

(** X5: a call of getDevices that does not return (it throws, or is cut
    off) leaves the directory as it was. *)
Theorem getDevices_failure_keeps_directory cloud fuel c :
  (forall ds, fst (getDevices cloud fuel c) <> Return ds) ->
  devices (snd (getDevices cloud fuel c)) = devices c.
Proof.
  intros H. pose proof (getDevices_failure cloud fuel c) as Hf.
  destruct (fst (getDevices cloud fuel c)) as [ds | e | ];
    [now destruct (H ds) | exact Hf | exact Hf].
Qed.

Lemma getDevices_failure_keeps_directory_witness :
  fst (getDevices outOfOrder 1 Demo.signedIn) = Throw (GetDevicesFailed 503)
  /\ devices (snd (getDevices outOfOrder 1 Demo.signedIn))
     = devices Demo.signedIn.
Proof.
  split; [reflexivity | ].
  apply getDevices_failure_keeps_directory. discriminate.
Defined.

(** X6: what getDevices returns is the manifest answered, with a success
    status, to the last request of the run, a manifest request under the
    token the client ends with: its entries in their order, serial for
    serial, and it is the directory the client then holds. *)
Theorem getDevices_returns_manifest cloud fuel c ds c' :
  getDevices cloud fuel c = (Return ds, c') ->
  exists response pre,
    sent c' = (ReqManifest (apiHost c') (authToken c') :: pre ++ sent c)%list
    /\ manifestReply cloud (sent c') = Answered response
    /\ ok response = true
    /\ ds = map toDevice (body response)
    /\ devices c' = ds
    /\ map serial ds = map Serial (body response).
Proof.
  revert c. induction fuel as [ | fuel IH]; intros c; [discriminate | ].
  destruct (sent_grows _ _ _ c (within_ensureAuthenticated cloud)) as [p1 Hp1].
  destruct (ensureAuthenticated cloud c) as [[[] | e | ] c1] eqn:Hguard;
    [ | cbn [getDevices]; rewrite (bind_Throw _ _ _ _ _ Hguard); discriminate
      | cbn [getDevices]; rewrite (bind_OutOfFuel _ _ _ _ Hguard); discriminate].
  rewrite (getDevices_cases _ _ _ _ Hguard). cbn zeta.
  set (m := ReqManifest (apiHost c1) (authToken c1)).
  assert (Hagain :
            bind (authenticate cloud) (fun _ => getDevices cloud fuel)
              (withToken None (record m c1)) = (Return ds, c') ->
            exists response pre,
              sent c' = (ReqManifest (apiHost c') (authToken c')
                         :: pre ++ sent c)%list
              /\ manifestReply cloud (sent c') = Answered response
              /\ ok response = true
              /\ ds = map toDevice (body response)
              /\ devices c' = ds
              /\ map serial ds = map Serial (body response)).
  { unfold bind at 1.
    destruct (sent_grows _ _ _ (withToken None (record m c1))
                (within_authenticate cloud)) as [p2 Hp2].
    destruct (authenticate cloud _) as [[[] | e | ] c2]; try discriminate.
    intros Hrun. destruct (IH _ Hrun) as (r & pre & Hs & rest).
    exists r, (pre ++ p2 ++ [m] ++ p1)%list.
    split; [ | exact rest].
    rewrite Hs. cbn in Hp1, Hp2 |- *. rewrite Hp2, Hp1. cbn.
    now rewrite <- !app_assoc. }
  destruct (manifestReply cloud (m :: sent c1)) as [ | r | r] eqn:Hreply;
    [discriminate | | ];
    (destruct (ok r) eqn:Hok;
     [ | destruct (status r =? 401); [exact Hagain | discriminate]]);
    [ | discriminate].
  intros [= <- <-]. exists r, p1. cbn in *.
  repeat split; try assumption.
  - now rewrite Hp1.
  - rewrite map_map. reflexivity.
Qed.

Lemma getDevices_returns_manifest_witness :
  exists response pre,
    sent (snd (getDevices inheriting 1 Demo.fresh))
    = (ReqManifest "appapi.cp.dyson.com" (Some "token") :: pre ++ [])%list
    /\ manifestReply inheriting (sent (snd (getDevices inheriting 1 Demo.fresh)))
       = Answered response
    /\ ok response = true
    /\ map serial (devices (snd (getDevices inheriting 1 Demo.fresh)))
       = ["A1B-EU-KDA0123A"; "E3F-EU-NHA8901C"]
    /\ map name (devices (snd (getDevices inheriting 1 Demo.fresh)))
       = ["Bedroom"; "Dyson constructor"]
    /\ map productTypeName (devices (snd (getDevices inheriting 1 Demo.fresh)))
       = [Text "Pure Cool Formaldehyde"; Inherited "constructor"].
Proof.
  destruct (getDevices_returns_manifest inheriting 1 Demo.fresh
              (map toDevice
                 [Demo.entry;
                  {| Serial := "E3F-EU-NHA8901C"; Name := None;
                     ProductType := "constructor"; ConnectionType := "wss";
                     LocalCredentials := None |}])
              (snd (getDevices inheriting 1 Demo.fresh)) eq_refl)
    as (response & pre & Hsent & Hreply & Hok & Hds & Hdevices & Hserial).
  exists response, pre.
  split; [exact Hsent | ]. split; [exact Hreply | ]. split; [exact Hok | ].
  rewrite Hdevices. repeat split.
Defined.

(** X7: a device getDevice returns is in the directory the client then
    holds: the first one of the serial asked for, or the first one of all
    when no serial, or the empty one, is asked for. *)
Theorem getDevice_returns_member cloud fuel deviceId c device c' :
  getDevice cloud fuel deviceId c = (Return device, c') ->
  In device (devices c')
  /\ lookupDevice deviceId (devices c') = Return device
  /\ (truthy deviceId = true ->
      serial device = asString deviceId
      /\ find (fun d => (serial d =? asString deviceId)%string) (devices c')
         = Some device)
  /\ (truthy deviceId = false -> hd_error (devices c') = Some device).
Proof.
  intros Hrun.
  assert (Hl : lookupDevice deviceId (devices c') = Return device).
  { destruct (devices c) as [ | d0 ds0] eqn:Hd.
    - rewrite (getDevice_run_empty _ _ _ _ Hd) in Hrun.
      destruct (getDevices cloud fuel c) as [[ds | e | ] c1] eqn:Hg;
        try discriminate.
      inversion Hrun; subst. now rewrite (getDevices_Return _ _ _ _ _ Hg).
    - rewrite getDevice_run_known in Hrun by (rewrite Hd; discriminate).
      inversion Hrun; subst. congruence. }
  split; [ | split; [exact Hl | ]]; unfold lookupDevice in Hl;
    destruct (truthy deviceId).
  - destruct (find _ _) as [d | ] eqn:Hf; [ | discriminate].
    inversion Hl; subst. now apply find_some in Hf.
  - destruct (devices c'); [discriminate | ]. inversion Hl; subst. now left.
  - split; [intros _ | discriminate].
    destruct (find _ _) as [d | ] eqn:Hf; [ | discriminate].
    inversion Hl; subst. split; [ | reflexivity].
    apply find_some in Hf. now apply String.eqb_eq.
  - split; [discriminate | intros _].
    destruct (devices c'); [discriminate | ]. now inversion Hl.
Qed.

Lemma getDevice_returns_member_witness :
  In (toDevice Demo.second) (devices Demo.signedIn)
  /\ serial (toDevice Demo.second) = "C2D-EU-MHA4567B".
Proof.
  destruct (getDevice_returns_member Demo.steady 1 (Some "C2D-EU-MHA4567B")
              Demo.signedIn (toDevice Demo.second) Demo.signedIn eq_refl)
    as (Hin & _ & Hs & _).
  split; [exact Hin | exact (proj1 (Hs eq_refl))].
Defined.

Lemma lookupDevice_serial (device : DysonDevice) ds :
  In device ds -> serial device <> "" ->
  exists d, lookupDevice (Some (serial device)) ds = Return d
            /\ serial d = serial device.
Proof.
  intros Hin Hne. unfold lookupDevice. cbn.
  apply String.eqb_neq in Hne. rewrite Hne. cbn.
  destruct (find _ ds) as [d | ] eqn:Hf.
  - exists d. split; [reflexivity | ].
    apply find_some in Hf. now apply String.eqb_eq.
  - exfalso. apply (find_none _ _ Hf) in Hin.
    now rewrite String.eqb_refl in Hin.
Qed.

(** A status read by a client that has its session and its directory. *)
Lemma getDeviceStatus_settled cloud fuel deviceId c device :
  truthy (authToken c) = true ->
  devices c <> [] ->
  lookupDevice deviceId (devices c) = Return device ->
  let read := ReqGetState (apiHost c) (serial device) (authToken c) in
  getDeviceStatus cloud fuel deviceId c
  = (match stateReply cloud (read :: sent c) with
     | Rejected => Throw TransportFailure
     | Answered response =>
         if ok response then Return (toStatus device (body response))
         else Throw (GetStatusFailed (status response))
     | Garbled response =>
         if ok response then Throw (UnexpectedBody (body response))
         else Throw (GetStatusFailed (status response))
     end, record read c).
Proof.
  intros Htoken Hds Hl read.
  apply (getDeviceStatus_cases cloud fuel deviceId c c device c
           (ensureAuthenticated_session cloud c Htoken)).
  now rewrite (getDevice_run_known _ _ _ _ Hds), Hl.
Qed.

(** X8: a client that has its session and its directory reads a status
    with one request, the read of the device's state; and when the update
    is granted and the device's serial is not empty, setDeviceState sends
    two, the update and then the read of the same serial, and a status it
    returns is of that serial. *)
Theorem settled_requests cloud fuel deviceId state c device update :
  truthy (authToken c) = true ->
  lookupDevice deviceId (devices c) = Return device ->
  devices c <> [] ->
  let read := ReqGetState (apiHost c) (serial device) (authToken c) in
  let patch := ReqPatchState (apiHost c) (serial device) (authToken c) state in
  sent (snd (getDeviceStatus cloud fuel deviceId c)) = read :: sent c
  /\ (serial device <> "" ->
      patchReply cloud (patch :: sent c) = Answered update ->
      ok update = true ->
      sent (snd (setDeviceState cloud fuel deviceId state c))
      = read :: patch :: sent c
      /\ forall st,
          fst (setDeviceState cloud fuel deviceId state c) = Return st ->
          status_serial st = serial device).
Proof.
  intros Htoken Hl Hds read patch. split.
  - now rewrite (getDeviceStatus_settled _ _ _ _ _ Htoken Hds Hl).
  - intros Hserial Hreply Hok.
    assert (Hin : In device (devices c)).
    { unfold lookupDevice in Hl. destruct (truthy deviceId).
      - destruct (find _ _) eqn:Hf; [ | discriminate].
        inversion Hl; subst. now apply find_some in Hf.
      - destruct (devices c); [discriminate | ]. inversion Hl. now left. }
    destruct (lookupDevice_serial device (devices c) Hin Hserial)
      as (d & Hd & Hsd).
    rewrite (setDeviceState_run cloud fuel deviceId state c c device c
               (ensureAuthenticated_session cloud c Htoken)).
    2:{ now rewrite (getDevice_run_known _ _ _ _ Hds), Hl. }
    cbn zeta. fold patch. rewrite Hreply, Hok.
    rewrite (getDeviceStatus_settled cloud fuel (Some (serial device))
               (record patch c) d Htoken Hds Hd).
    cbn zeta. cbn [snd fst sent record apiHost authToken]. rewrite Hsd.
    split; [reflexivity | ].
    intros st. destruct (stateReply cloud _) as [ | r | r];
      [discriminate | | destruct (ok r); discriminate].
    destruct (ok r); [ | discriminate].
    intros [= <-]. exact Hsd.
Qed.

Lemma settled_requests_witness :
  sent (snd (getDeviceStatus Demo.steady 0 None Demo.signedIn))
  = [ReqGetState "appapi.cp.dyson.com" "A1B-EU-KDA0123A" (Some "token")]
  /\ sent (snd (setDeviceState Demo.steady 0 None (nightModeField true)
                  Demo.signedIn))
     = [ReqGetState "appapi.cp.dyson.com" "A1B-EU-KDA0123A" (Some "token");
        ReqPatchState "appapi.cp.dyson.com" "A1B-EU-KDA0123A" (Some "token")
          (nightModeField true)].
Proof.
  pose proof (settled_requests Demo.steady 0 None (nightModeField true)
                Demo.signedIn (toDevice Demo.entry)
                {| status := 200; statusText := ""; body := emptyState |}
                eq_refl eq_refl ltac:(discriminate)) as [H1 H2].
  split; [exact H1 | ].
  exact (proj1 (H2 ltac:(discriminate) eq_refl eq_refl)).
Defined.

(** *** What each method throws and sends *)

(** X9: what each method can throw: authenticate the credential, status and
    transport errors of the authentication and what the runtime throws
    where the body of a response is read; getDevices also the manifest's
    failure; getDevice also DeviceNotFound and NoDevicesFound;
    getDeviceStatus also the state's failure; getAirQuality also
    AirQualityUnavailable; the updates also the update's failure, and
    setFanSpeed alone InvalidFanSpeed. *)
Theorem method_errors cloud fuel deviceId c e :
  (fst (authenticate cloud c) = Throw e -> authError e)
  /\ (fst (getDevices cloud fuel c) = Throw e -> directoryError e)
  /\ (fst (getDevice cloud fuel deviceId c) = Throw e -> lookupError e)
  /\ (fst (getDeviceStatus cloud fuel deviceId c) = Throw e -> statusError e)
  /\ (fst (getAirQuality cloud fuel deviceId c) = Throw e ->
      e = AirQualityUnavailable \/ statusError e)
  /\ (forall state,
        fst (setDeviceState cloud fuel deviceId state c) = Throw e ->
        updateError e)
  /\ (forall speed,
        fst (setFanSpeed cloud fuel deviceId speed c) = Throw e ->
        e = InvalidFanSpeed \/ updateError e)
  /\ (forall enabled,
        fst (setOscillation cloud fuel deviceId enabled c) = Throw e ->
        updateError e)
  /\ (forall enabled,
        fst (setNightMode cloud fuel deviceId enabled c) = Throw e ->
        updateError e).
Proof.
  repeat apply conj.
  - apply (proj2 (authenticate_footprint cloud c)).
  - apply (proj2 (getDevices_footprint cloud fuel c)).
  - apply (proj2 (getDevice_footprint cloud fuel deviceId c)).
  - apply (proj2 (getDeviceStatus_footprint cloud fuel deviceId c)).
  - apply (proj2 (getAirQuality_footprint cloud fuel deviceId c)).
  - intros state. apply (proj2 (setDeviceState_footprint cloud fuel deviceId state c)).
  - intros speed. unfold setFanSpeed.
    destruct (fanSpeedFields speed) as [err | fields] eqn:Hf.
    + intros [= <-]. left. now apply fanSpeedFields_error in Hf.
    + intros H. right.
      now apply (proj2 (setDeviceState_footprint cloud fuel deviceId fields c)).
  - intros enabled. apply (proj2 (setDeviceState_footprint cloud fuel deviceId _ c)).
  - intros enabled. apply (proj2 (setDeviceState_footprint cloud fuel deviceId _ c)).
Qed.

Lemma method_errors_witness :
  directoryError (GetDevicesFailed 503) /\ statusError (GetStatusFailed 401)
  /\ lookupError (UnexpectedBody "data.map is not a function").
Proof.
  repeat apply conj.
  - exact (proj1 (proj2 (method_errors outOfOrder 1 None Demo.signedIn
                           (GetDevicesFailed 503))) eq_refl).
  - exact (proj1 (proj2 (proj2 (proj2
             (method_errors Demo.refusing 1 None Demo.signedIn
                (GetStatusFailed 401))))) eq_refl).
  - exact (proj1 (proj2 (proj2
             (method_errors garbling 1 None Demo.fresh
                (UnexpectedBody "data.map is not a function")))) eq_refl).
Defined.


(** *** getAirQuality *)

(** X11: getAirQuality leaves the client as getDeviceStatus does, returns
    an air quality exactly when getDeviceStatus returns a status that has
    it, and throws AirQualityUnavailable exactly when getDeviceStatus
    returns a status that has none. *)
Theorem getAirQuality_outcome cloud fuel deviceId c :
  snd (getAirQuality cloud fuel deviceId c)
  = snd (getDeviceStatus cloud fuel deviceId c)
  /\ (fst (getAirQuality cloud fuel deviceId c) = Throw AirQualityUnavailable
      <-> exists st,
            fst (getDeviceStatus cloud fuel deviceId c) = Return st
            /\ airQuality st = None)
  /\ (forall aq,
        fst (getAirQuality cloud fuel deviceId c) = Return aq
        <-> exists st,
              fst (getDeviceStatus cloud fuel deviceId c) = Return st
              /\ airQuality st = Some aq).
Proof.
  pose proof (proj2 (getDeviceStatus_footprint cloud fuel deviceId c)) as Herr.
  unfold getAirQuality, bind.
  destruct (getDeviceStatus cloud fuel deviceId c) as [[st | e | ] c1];
    cbn in *.
  - destruct (airQuality st) as [aq | ] eqn:Haq; cbn;
      (split; [reflexivity | ]); split; try intros aq'; split;
      try discriminate;
      try (intros (st' & [= <-] & H); congruence);
      try (intros [= <-]); now exists st.
  - (split; [reflexivity | ]); split; try intros aq'; split;
      try discriminate; try (now intros (st & H & _)).
    intros [= ->]. now specialize (Herr _ eq_refl).
  - (split; [reflexivity | ]); split; try intros aq'; split;
      try discriminate; now intros (st & H & _).
Qed.

(** ** The pure helpers *)

Section FloatOrderTransitive.

Lemma SFleb_trans (x y z : spec_float) :
  SpecFloat.SFleb x y = true -> SpecFloat.SFleb y z = true ->
  SpecFloat.SFleb x z = true.
Proof.
  unfold SpecFloat.SFleb.
  destruct x as [sx | sx | | sx mx ex], y as [sy | sy | | sy my ey],
    z as [sz | sz | | sz mz ez]; cbn;
    try discriminate; try reflexivity;
    try (destruct sx, sy, sz; cbn; (discriminate || reflexivity)).
  destruct sx, sy, sz; cbn; try discriminate; try reflexivity;
    rewrite !Pos.compare_cont_spec; cbn;
    destruct (Z.compare_spec ex ey), (Z.compare_spec ey ez),
      (Z.compare_spec ex ez); cbn; try discriminate; try reflexivity;
      try lia; subst;
      destruct (Pos.compare_spec mx my), (Pos.compare_spec my mz),
        (Pos.compare_spec mx mz); cbn; try discriminate; try reflexivity;
        try lia.
Qed.

Lemma leb_trans (x y z : float) :
  (x <=? y)%float = true -> (y <=? z)%float = true -> (x <=? z)%float = true.
Proof. rewrite !leb_spec. apply SFleb_trans. Qed.

End FloatOrderTransitive.

(** X12: getAirQualityLevel is monotone: of two values the greater is never
    in a better band. *)
Theorem getAirQualityLevel_monotone (x y : float) :
  (x <=? y)%float = true ->
  (bandRank (getAirQualityLevel x) <= bandRank (getAirQualityLevel y))%nat.
Proof.
  intros Hxy. unfold getAirQualityLevel.
  pose proof (leb_trans x y 12 Hxy) as H1.
  pose proof (leb_trans x y 35 Hxy) as H2.
  pose proof (leb_trans x y 55 Hxy) as H3.
  pose proof (leb_trans x y 150 Hxy) as H4.
  pose proof (leb_trans x y 250 Hxy) as H5.
  destruct (y <=? 12)%float; [rewrite (H1 eq_refl); cbn; lia | ].
  destruct (y <=? 35)%float;
    [rewrite (H2 eq_refl); destruct (x <=? 12)%float; cbn; lia | ].
  destruct (y <=? 55)%float;
    [rewrite (H3 eq_refl); destruct (x <=? 12)%float, (x <=? 35)%float;
     cbn; lia | ].
  destruct (y <=? 150)%float;
    [rewrite (H4 eq_refl);
     destruct (x <=? 12)%float, (x <=? 35)%float, (x <=? 55)%float;
     cbn; lia | ].
  destruct (y <=? 250)%float;
    [rewrite (H5 eq_refl);
     destruct (x <=? 12)%float, (x <=? 35)%float, (x <=? 55)%float,
       (x <=? 150)%float; cbn; lia | ].
  destruct (x <=? 12)%float, (x <=? 35)%float, (x <=? 55)%float,
    (x <=? 150)%float, (x <=? 250)%float; cbn; lia.
Qed.

Lemma getAirQualityLevel_monotone_witness :
  (bandRank (getAirQualityLevel 35.4) <= bandRank (getAirQualityLevel 35.5))%nat
  /\ getAirQualityLevel 35.4 = "Unhealthy for Sensitive Groups"
  /\ getAirQualityLevel 35.5 = "Unhealthy for Sensitive Groups".
Proof.
  split; [apply getAirQualityLevel_monotone; reflexivity | ].
  split; reflexivity.
Defined.

Lemma wireTemperatures_checked :
  forallb tenthsAboveFreezing wireTemperatures = true.
Proof. vm_compute. reflexivity. Qed.

(** X13: for every wire temperature n from 0 to 9999, in tenths of a
    kelvin, kelvinToCelsius (n / 10) is the double (n - 2731) / 10: the
    tie of n / 10 - 273.15 is rounded up at every one of them, whatever the
    error of the subtraction in doubles. *)
Theorem kelvinToCelsius_tenths (n : Z) :
  0 <= n <= 9999 ->
  (kelvinToCelsius (ofZ n / 10) =? ofZ (n - 2731) / 10)%float = true.
Proof.
  intros Hn.
  pose proof wireTemperatures_checked as H.
  rewrite forallb_forall in H. apply (H n).
  unfold wireTemperatures. apply in_map_iff. exists (Z.to_nat n).
  split; [lia | ]. apply in_seq. lia.
Qed.

Lemma kelvinToCelsius_tenths_witness :
  (kelvinToCelsius (ofZ 2982 / 10) =? ofZ (2982 - 2731) / 10)%float = true.
Proof. apply kelvinToCelsius_tenths. lia. Defined.

(** ** The constructor *)

Import Construct.

(** X14: a new client has one of the six hosts of the table, no token, no
    device and has sent nothing; its host is the one of the country's code
    in any case of its letters, and the host of US when the country is not
    given or is no code of the table. *)
Theorem construct_host user secret country :
  let c := construct user secret country in
  In (apiHost c) hosts
  /\ authToken c = None /\ devices c = [] /\ sent c = []
  /\ email c = user /\ password c = secret
  /\ (forall code host,
        DYSON_API_HOSTS code = Some host ->
        (exists given, country = Some given /\ toUpperCase given = code) ->
        apiHost c = host)
  /\ ((forall given, country = Some given ->
         DYSON_API_HOSTS (toUpperCase given) = None) ->
      apiHost c = "appapi.cp.dyson.com").
Proof.
  unfold construct, DYSON_API_HOSTS. cbn.
  split.
  { repeat (match goal with
            | |- context [if ?b then _ else _] => destruct b
            end; [cbn; tauto | ]).
    cbn; tauto. }
  do 5 (split; [reflexivity | ]). split.
  - intros code host Hhost (given & -> & <-). now rewrite Hhost.
  - destruct country as [given | ]; [ | reflexivity].
    intros H. now rewrite (H given eq_refl).
Qed.

Lemma construct_host_witness :
  apiHost (construct "user@example.com" "secret" (Some "gb"))
  = "appapi.cp.dyson.co.uk"
  /\ apiHost (construct "user@example.com" "secret" (Some "Mars"))
     = "appapi.cp.dyson.com".
Proof.
  split.
  - apply (proj1 (proj2 (proj2 (proj2 (proj2 (proj2 (proj2
             (construct_host "user@example.com" "secret" (Some "gb"))))))))
            "GB"); [reflexivity | now exists "gb"].
  - apply (proj2 (proj2 (proj2 (proj2 (proj2 (proj2 (proj2
             (construct_host "user@example.com" "secret" (Some "Mars"))))))))).
    intros given [= <-]. reflexivity.
Defined.

(** ** The tool server *)

Import Server Json.

Lemma route_toolName tool : route (toolName tool) = Some tool.
Proof. now destruct tool. Qed.

Lemma route_Some name tool : route name = Some tool -> name = toolName tool.
Proof.
  unfold route.
  repeat match goal with
         | |- context [(name =? ?s)%string] =>
             destruct (String.eqb_spec name s) as [-> | _];
             [now intros [= <-] | ]
         end.
  discriminate.
Qed.

(** X15: the tools that are listed are the tools that are served: a name
    has a case of the handler exactly when it is the name of a listed tool,
    the five listed names are distinct, and a call of any other name is
    answered with the error "Unknown tool" and the name, the client left
    as it was. *)
Theorem listed_tools_are_served transport cloud fuel name args c :
  (In name (map toolName listTools) <-> route name <> None)
  /\ NoDup (map toolName listTools)
  /\ (~ In name (map toolName listTools) ->
      callTool transport cloud fuel name args c
      = (Some (failure ("Unknown tool: " ++ name)), c))
  /\ (forall tool, In tool listTools /\ route (toolName tool) = Some tool).
Proof.
  assert (Hiff : In name (map toolName listTools) <-> route name <> None).
  { split.
    - intros Hin. apply in_map_iff in Hin. destruct Hin as (tool & <- & _).
      now rewrite route_toolName.
    - destruct (route name) as [tool | ] eqn:Hr; [intros _ | now intros H].
      apply route_Some in Hr. subst. destruct tool; cbn; tauto. }
  split; [exact Hiff | ]. split; [ | split].
  - cbn. repeat constructor; cbn; intuition discriminate.
  - intros Hout. unfold callTool.
    destruct (route name) eqn:Hr; [ | reflexivity].
    exfalso. apply Hout, Hiff. discriminate.
  - intros tool. split; [destruct tool; cbn; tauto | apply route_toolName].
Qed.

Lemma listed_tools_are_served_witness :
  callTool "fetch failed" Demo.steady 1 "reboot"
    {| device_id := None; speed := None; enabled := None |} Demo.signedIn
  = (Some (failure "Unknown tool: reboot"), Demo.signedIn).
Proof.
  apply (listed_tools_are_served "fetch failed" Demo.steady 1 "reboot").
  cbn. intuition discriminate.
Defined.

(** X16: the handler requires what the schemas declare required: a call
    that lacks an argument its tool's schema requires (a speed that is the
    empty string counts as lacking) is answered with an error before the
    client is used; a call that has them all runs the method of the client
    on them. *)
Theorem required_arguments transport cloud fuel tool args c :
  ((exists argument,
      In argument (required tool) /\ supplied args argument = false) ->
   exists msg,
     handle transport cloud fuel tool args c = (Some (failure msg), c))
  /\ ((forall argument,
         In argument (required tool) -> supplied args argument = true) ->
      match tool with
      | get_device_status =>
          handle transport cloud fuel tool args c
          = respond transport (getDeviceStatus cloud fuel (device_id args))
              statusReport c
      | get_air_quality =>
          handle transport cloud fuel tool args c
          = respond transport (getAirQuality cloud fuel (device_id args))
              airQualityReport c
      | set_fan_speed =>
          exists s,
            speed args = Some s /\ s <> ""
            /\ handle transport cloud fuel tool args c
               = respond transport (setFanSpeed cloud fuel (device_id args) s)
                   fanSpeedReport c
      | set_oscillation =>
          exists on,
            enabled args = Some on
            /\ handle transport cloud fuel tool args c
               = respond transport
                   (setOscillation cloud fuel (device_id args) on)
                   (oscillationReport on) c
      | set_night_mode =>
          exists on,
            enabled args = Some on
            /\ handle transport cloud fuel tool args c
               = respond transport
                   (setNightMode cloud fuel (device_id args) on)
                   (nightModeReport on) c
      end).
Proof.
  split.
  - intros (argument & Hin & Hmiss).
    destruct tool; cbn in Hin; try contradiction;
      destruct Hin as [<- | []]; cbn in Hmiss; unfold handle.
    + rewrite Hmiss. now eexists.
    + destruct (enabled args); [discriminate | now eexists].
    + destruct (enabled args); [discriminate | now eexists].
  - intros Hall. destruct tool; try reflexivity.
    + specialize (Hall "speed" (or_introl eq_refl)). cbn in Hall.
      unfold handle. rewrite Hall. cbn.
      destruct (speed args) as [s | ]; [ | discriminate].
      exists s. repeat split. cbn in Hall.
      now apply negb_true_iff, String.eqb_neq in Hall.
    + specialize (Hall "enabled" (or_introl eq_refl)). cbn in Hall.
      unfold handle. destruct (enabled args) as [on | ]; [ | discriminate].
      now exists on.
    + specialize (Hall "enabled" (or_introl eq_refl)). cbn in Hall.
      unfold handle. destruct (enabled args) as [on | ]; [ | discriminate].
      now exists on.
Qed.

Lemma required_arguments_witness :
  exists msg,
    handle "fetch failed" Demo.steady 1 set_fan_speed
      {| device_id := None; speed := Some ""; enabled := None |} Demo.signedIn
    = (Some (failure msg), Demo.signedIn).
Proof.
  apply (proj1 (required_arguments "fetch failed" Demo.steady 1 set_fan_speed
                  {| device_id := None; speed := Some ""; enabled := None |}
                  Demo.signedIn)).
  exists "speed". split; [now left | reflexivity].
Defined.

Lemma stringify_object field fields :
  exists rest, stringify (JObject (field :: fields)) = String "{" rest.
Proof. unfold stringify. cbn [stringifyAt]. now eexists. Qed.

Lemma respond_flag transport {A} (m : M A) (report : A -> value) c result c' :
  (forall a, exists field fields, report a = JObject (field :: fields)) ->
  respond transport m report c = (Some result, c') ->
  (isError result = true /\ exists msg, text result = "Error: " ++ msg)
  \/ (isError result = false /\ exists rest, text result = String "{" rest).
Proof.
  intros Hobj. unfold respond.
  destruct (m c) as [[a | e | ] c1]; try discriminate; intros [= <- <-].
  - right. split; [reflexivity | ].
    destruct (Hobj a) as (field & fields & ->). apply stringify_object.
  - left. split; [reflexivity | now eexists].
Qed.

(** X17: an answer of the handler has the error flag exactly when its text
    is "Error: " and a message; otherwise its text is that of a JSON
    object. *)
Theorem answers_are_flagged transport cloud fuel name args c result c' :
  callTool transport cloud fuel name args c = (Some result, c') ->
  (isError result = true /\ exists msg, text result = "Error: " ++ msg)
  \/ (isError result = false /\ exists rest, text result = String "{" rest).
Proof.
  assert (Hreject : forall msg,
             reject msg c = (Some result, c') ->
             (isError result = true
              /\ exists msg, text result = "Error: " ++ msg)
             \/ (isError result = false
                 /\ exists rest, text result = String "{" rest)).
  { intros msg [= <- <-]. left. split; [reflexivity | now eexists]. }
  unfold callTool. destruct (route name) as [tool | ]; [ | apply Hreject].
  destruct tool; unfold handle.
  - apply respond_flag. intros st. unfold statusReport. now eexists _, _.
  - destruct (negb _); [apply Hreject | ].
    apply respond_flag. intros st. unfold fanSpeedReport. now eexists _, _.
  - destruct (enabled args); [ | apply Hreject].
    apply respond_flag. intros st. unfold oscillationReport. now eexists _, _.
  - apply respond_flag. intros st. unfold airQualityReport. now eexists _, _.
  - destruct (enabled args); [ | apply Hreject].
    apply respond_flag. intros st. unfold nightModeReport. now eexists _, _.
Qed.

Lemma answers_are_flagged_witness :
  (isError (failure "Device not found: x") = true
   /\ exists msg, text (failure "Device not found: x") = "Error: " ++ msg)
  \/ (isError (failure "Device not found: x") = false
      /\ exists rest, text (failure "Device not found: x") = String "{" rest).
Proof.
  apply (answers_are_flagged "fetch failed" Demo.refusing 3 "set_night_mode"
           {| device_id := Some "x"; speed := None; enabled := Some true |}
           Demo.fresh (failure "Device not found: x")
           (snd (callTool "fetch failed" Demo.refusing 3 "set_night_mode"
                   {| device_id := Some "x"; speed := None;
                      enabled := Some true |} Demo.fresh))).
  reflexivity.
Defined.

Section Discipline.

Variable cloud : Cloud.
Variable fuel : nat.
Variable deviceId : option string.

Lemma getDeviceStatus_disciplined :
  disciplined cloud (getDeviceStatus cloud fuel deviceId).
Proof.
  split; [configured getDeviceStatus_keeps | ].
  intros Hg. eapply sendsTokened_intro, getDeviceStatus_session, Hg.
Qed.

Lemma getAirQuality_disciplined :
  disciplined cloud (getAirQuality cloud fuel deviceId).
Proof.
  split; [configured getAirQuality_keeps | ].
  intros Hg. eapply sendsTokened_intro, getAirQuality_session, Hg.
Qed.

Lemma setDeviceState_disciplined state :
  disciplined cloud (setDeviceState cloud fuel deviceId state).
Proof.
  split; [configured setDeviceState_keeps | ].
  intros Hg. eapply sendsTokened_intro, setDeviceState_session, Hg.
Qed.

Lemma setFanSpeed_disciplined speed :
  disciplined cloud (setFanSpeed cloud fuel deviceId speed).
Proof.
  unfold setFanSpeed. destruct (fanSpeedFields speed) as [e | fields];
    [ | apply setDeviceState_disciplined].
  split; [ | intros _]; intros c; [split; [reflexivity | ] | ];
    exists []; now split.
Qed.

End Discipline.

Lemma respond_client transport {A} (m : M A) (report : A -> value) c :
  snd (respond transport m report c) = snd (m c).
Proof. unfold respond. now destruct (m c) as [[a | e | ] c']. Qed.

(** X18: whatever tool is called with whatever arguments, the server's
    client keeps its email, password and host, sends its requests to that
    host alone, the credentials in authentications alone, under a token when
    the cloud grants them, and sends no update for a tool that reads. *)
Theorem tool_calls_are_disciplined transport cloud fuel name args c :
  let c' := snd (callTool transport cloud fuel name args c) in
  config c' = config c
  /\ exists pre,
       sent c' = (pre ++ sent c)%list
       /\ Forall (addressed (config c)) pre
       /\ (grantsTokens cloud -> Forall tokened pre)
       /\ (forall tool,
             route name = Some tool -> reads tool = true ->
             Forall notPatch pre).
Proof.
  assert (Hquiet : forall msg,
             let c' := snd (reject msg c) in
             config c' = config c
             /\ exists pre,
                  sent c' = (pre ++ sent c)%list
                  /\ Forall (addressed (config c)) pre
                  /\ (grantsTokens cloud -> Forall tokened pre)
                  /\ (forall tool,
                        route name = Some tool -> reads tool = true ->
                        Forall notPatch pre)).
  { intros msg. split; [reflexivity | ]. exists []. now repeat split. }
  assert (Hrun : forall A (m : M A) report,
             disciplined cloud m ->
             (forall tool,
                route name = Some tool -> reads tool = true ->
                within notPatch (fun _ => True) m) ->
             let c' := snd (respond transport m report c) in
             config c' = config c
             /\ exists pre,
                  sent c' = (pre ++ sent c)%list
                  /\ Forall (addressed (config c)) pre
                  /\ (grantsTokens cloud -> Forall tokened pre)
                  /\ (forall tool,
                        route name = Some tool -> reads tool = true ->
                        Forall notPatch pre)).
  { intros A m report [Hk Ht] Hread. cbv zeta. rewrite respond_client.
    destruct (Hk c) as [Hc (pre & Hs & Hp)]. split; [exact Hc | ].
    exists pre. repeat split; try assumption.
    - intros Hg. destruct (Ht Hg c) as (pre' & Hs' & Hp').
      rewrite Hs in Hs'. now apply app_inv_tail in Hs'; subst.
    - intros tool Hroute Hreads.
      destruct (proj1 (Hread tool Hroute Hreads c)) as (pre' & Hs' & Hp').
      rewrite Hs in Hs'. now apply app_inv_tail in Hs'; subst. }
  unfold callTool. destruct (route name) as [tool | ] eqn:Hroute;
    [ | apply Hquiet].
  destruct tool; unfold handle.
  - apply Hrun; [apply getDeviceStatus_disciplined | ].
    intros _ _ _.
    apply (within_weaken notPatch notPatch statusError);
      [auto | auto | apply getDeviceStatus_footprint].
  - destruct (negb _); [apply Hquiet | ].
    apply Hrun; [apply setFanSpeed_disciplined | ].
    intros tool [= <-]; discriminate.
  - destruct (enabled args); [ | apply Hquiet].
    apply Hrun; [apply setDeviceState_disciplined | ].
    intros tool [= <-]; discriminate.
  - apply Hrun; [apply getAirQuality_disciplined | ].
    intros _ _ _.
    apply (within_weaken notPatch notPatch
             (fun e => e = AirQualityUnavailable \/ statusError e));
      [auto | auto | apply getAirQuality_footprint].
  - destruct (enabled args); [ | apply Hquiet].
    apply Hrun; [apply setDeviceState_disciplined | ].
    intros tool [= <-]; discriminate.
Qed.
